(** * transcribe-bot: the conversation controller of [main.py]

    A shallow embedding of the two aiogram handlers [handle_video] and
    [process_language_choice], the per-user FSM context they read and write,
    the scratch files they create and remove, and the calls they issue to
    the chat transport, moviepy, whisper and the translator.

    Python strings are lists of Unicode code points, the FSM data dictionary
    is a [gmap], the files and directories on disk are [gset]s of paths.
    Every call that leaves the process is answered by an oracle of the
    environment [Env], which either returns or raises; the calls issued are
    recorded, in order, in a trace.  [os.remove] raises on a directory and,
    where the environment says so, on a file the handlers did not just
    write or still read. *)

From Stdlib Require Import String Ascii.
From stdpp Require Import gmap list.

Local Open Scope N_scope.
Local Open Scope list_scope.

(** ** Python strings *)

Module PyStr.

(** A [str] is a sequence of code points. *)
Abbreviation str := (list N).

(** Decoder for the UTF-8 bytes of a literal of this file. *)
Definition cont (b : N) : N := N.land b 63.

Fixpoint utf8 (bs : list N) : str :=
  match bs with
  | [] => []
  | b :: r =>
    if b <? 128 then b :: utf8 r
    else if b <? 224 then
      match r with
      | b1 :: r1 => (N.shiftl (N.land b 31) 6 + cont b1) :: utf8 r1
      | _ => []
      end
    else if b <? 240 then
      match r with
      | b1 :: b2 :: r2 =>
        (N.shiftl (N.land b 15) 12 + N.shiftl (cont b1) 6 + cont b2) :: utf8 r2
      | _ => []
      end
    else
      match r with
      | b1 :: b2 :: b3 :: r3 =>
        (N.shiftl (N.land b 7) 18 + N.shiftl (cont b1) 12
         + N.shiftl (cont b2) 6 + cont b3) :: utf8 r3
      | _ => []
      end
  end.

Definition lit (s : string) : str :=
  utf8 (map N_of_ascii (list_ascii_of_string s)).

(** [s.split(sep)] for a separator of one character: the pieces between
    the occurrences of [sep], always at least one piece. *)
Fixpoint split (sep : N) (s : str) : list str :=
  match s with
  | [] => [[]]
  | c :: r =>
    if c =? sep then [] :: split sep r
    else match split sep r with
         | piece :: pieces => (c :: piece) :: pieces
         | [] => [[c]]
         end
  end.

(** [str.isspace] on one character: the code points CPython lists as
    white space. *)
Definition isspace (c : N) : bool :=
  ((9 <=? c) && (c <=? 13)) || ((28 <=? c) && (c <=? 32))
  || (c =? 133) || (c =? 160) || (c =? 5760)
  || ((8192 <=? c) && (c <=? 8202))
  || (c =? 8232) || (c =? 8233) || (c =? 8239) || (c =? 8287)
  || (c =? 12288).

Fixpoint lstrip (s : str) : str :=
  match s with
  | [] => []
  | c :: r => if isspace c then lstrip r else s
  end.

Definition rstrip (s : str) : str := rev (lstrip (rev s)).

(** [s.strip()] *)
Definition strip (s : str) : str := rstrip (lstrip s).

(** Truth value of a string: empty is false. *)
Definition truthy (s : str) : bool :=
  match s with [] => false | _ => true end.

(** [str(x)] inside an f-string, for a value that may be [None]. *)
Definition format_opt (o : option str) : str :=
  match o with
  | Some s => s
  | None => lit "None"
  end.

End PyStr.
Import PyStr.

Definition underscore : N := 95.
Definition newline : str := [10].

(** ** Exceptions and results *)

(** An instance of a subclass of Python's [Exception]: its class name and
    the text [str(e)] gives.  These are the exceptions [except Exception]
    catches. *)
Record exn := Exception { exn_class : str; exn_str : str }.

Definition IndexError : exn :=
  Exception (lit "IndexError") (lit "list index out of range").
Definition TypeError : exn :=
  Exception (lit "TypeError")
    (lit "'>' not supported between instances of 'NoneType' and 'int'").
Definition AttributeError : exn :=
  Exception (lit "AttributeError")
    (lit "'NoneType' object has no attribute 'split'").
Definition FileNotFoundError : exn :=
  Exception (lit "FileNotFoundError") (lit "No such file or directory").
Definition IsADirectoryError : exn :=
  Exception (lit "IsADirectoryError") (lit "[Errno 21] Is a directory").

(** How a statement ends: it falls through with a value, executes
    [return], or raises. *)
Inductive res (A : Type) : Type :=
| Val (a : A)
| Ret
| Exc (e : exn).
Arguments Val {A} a.
Arguments Ret {A}.
Arguments Exc {A} e.

(** What a call into a library or service does. *)
Inductive outcome (A : Type) : Type :=
| Returns (a : A)
| Raises (e : exn).
Arguments Returns {A} a.
Arguments Raises {A} e.

(** What a call that writes a file to a destination path does: it writes
    the file and returns, or it raises, with or without leaving a file
    behind. *)
Inductive written : Type :=
| Written
| Partial (e : exn)
| NotWritten (e : exn).

(** ** Data of the chat transport *)

(** [message.video]: the file identifier and the declared size, which the
    transport may leave out. *)
Record Video := { file_id : str; file_size : option Z }.

(** [callback]: the data of the pressed button, which the transport may
    leave out. *)
Record CallbackQuery := { data : option str }.

(** The object [bot.get_file] returns. *)
Record File := { file_path : option str }.

Record InlineKeyboardButton := { text : str; callback_data : str }.
Abbreviation InlineKeyboardMarkup := (list (list InlineKeyboardButton)).

Definition language_keyboard : InlineKeyboardMarkup :=
  [[ {| text := lit "🇬🇧 English"; callback_data := lit "lang_en" |};
     {| text := lit "🇪🇸 Español"; callback_data := lit "lang_es" |} ]].

(** [TranscriptionStates]; the FSM state of a user is one of these or
    [None] (the spec's Idle). *)
Inductive TranscriptionStates := WaitingForLanguageChoice.

(** ** Calls that leave the process, and the environment answering them *)

Inductive Event : Type :=
| EReply (body : str) (reply_markup : option InlineKeyboardMarkup)
| EAnswer
| EEditText (body : str)
| EGetFile (fid : option str)
| EMakedirs (dir : str)
| EDownloadFile (src : option str) (destination : str)
| EVideoFileClip (path : str)
| EWriteAudiofile (path : str)
| EClose
| ETranscribe (audio : str) (language : str)
| EGoogleTranslator (source target : str)
| ETranslate (body : str)
| EPrint (line : str).

(** The environment of one handler run: what each call does, as a function
    of the arguments of the call.
    - [message_reply body markup]: [message.reply(body, reply_markup=markup)]
    - [callback_answer]: [callback.answer()]
    - [message_edit_text body]: [callback.message.edit_text(body)]
    - [bot_get_file fid]: [bot.get_file(fid)]
    - [os_makedirs dir]: [os.makedirs(dir, exist_ok=True)]
    - [os_remove path]: [os.remove(path)] on a regular file other than one
      the handlers wrote themselves and hold no reader on (such a file is
      removed without asking); it raises where the file cannot be unlinked,
      as for a file that a clip left open still holds on a platform that
      locks open files
    - [bot_download_file src dst]: [bot.download_file(src, destination=dst)]
    - [VideoFileClip path]: opening the clip
    - [write_audiofile video audio]: [video_clip.audio.write_audiofile(audio,
      logger=None)] on the clip of [video]; a clip without audio track raises
    - [video_clip_close video]: [video_clip.close()]
    - [model_transcribe audio lang]:
      [model.transcribe(audio, language=lang)["text"]]
    - [GoogleTranslator source target]: constructing the translator
    - [translator_translate source target body]: [translator.translate(body)] *)
Record Env := {
  message_reply : str -> option InlineKeyboardMarkup -> outcome unit;
  callback_answer : outcome unit;
  message_edit_text : str -> outcome unit;
  bot_get_file : option str -> outcome File;
  os_makedirs : str -> outcome unit;
  os_remove : str -> outcome unit;
  bot_download_file : option str -> str -> written;
  VideoFileClip : str -> outcome unit;
  write_audiofile : str -> str -> written;
  video_clip_close : str -> outcome unit;
  model_transcribe : str -> str -> outcome str;
  GoogleTranslator : str -> str -> outcome unit;
  translator_translate : str -> str -> str -> outcome str
}.

(** ** The machine a handler runs on *)

(** The FSM context of the user ([fsm_state], [fsm_data]), the file system,
    the calls issued so far (oldest first), and the two local variables of
    [process_language_choice] that its [finally] block reads.  Of the file
    system: [disk] are the paths of regular files, [dirs] the paths of
    directories, [owned] the regular files the handlers wrote themselves,
    and [reading] the files on which a clip opened by a handler may still
    hold a reader.
    A handler runs on a machine from its first statement to its last: the
    runs of other handlers between two [await]s are not part of a run. *)
Record Machine := {
  fsm_state : option TranscriptionStates;
  fsm_data : gmap str str;
  disk : gset str;
  dirs : gset str;
  owned : gset str;
  reading : gset str;
  trace : list Event;
  video_path : option str;
  audio_path : option str
}.

Definition M (A : Type) : Type := Machine -> Machine * res A.

#[global] Instance M_ret : MRet M := fun A a m => (m, Val a).

#[global] Instance M_bind : MBind M := fun A B f c m =>
  match c m with
  | (m1, Val a) => f a m1
  | (m1, Ret) => (m1, Ret)
  | (m1, Exc e) => (m1, Exc e)
  end.

Definition raise {A} (e : exn) : M A := fun m => (m, Exc e).

(** The [return] statement. *)
Definition return_ {A} : M A := fun m => (m, Ret).

(** A function body: [return] ends the body, not the caller. *)
Definition def (body : M unit) : M unit := fun m =>
  match body m with
  | (m1, Ret) => (m1, Val tt)
  | other => other
  end.

(** [try: body / except Exception as e: handler e / finally: final].  The
    [finally] block runs however the rest ended; what it raises or returns
    replaces the pending outcome. *)
Definition try_except_finally
    (body : M unit) (handler : exn -> M unit) (final : M unit) : M unit :=
  fun m =>
    let '(m1, r1) := body m in
    let '(m2, r2) := match r1 with
                     | Exc e => handler e m1
                     | _ => (m1, r1)
                     end in
    let '(m3, r3) := final m2 in
    (m3, match r3 with Val _ => r2 | _ => r3 end).

Definition record (ev : Event) (m : Machine) : Machine :=
  {| fsm_state := fsm_state m; fsm_data := fsm_data m; disk := disk m;
     dirs := dirs m; owned := owned m; reading := reading m;
     trace := trace m ++ [ev];
     video_path := video_path m; audio_path := audio_path m |}.

(** The file system replaced: regular files [d], directories [ds], owned
    files [o], files with a reader [r]. *)
Definition with_files (d ds o r : gset str) (m : Machine) : Machine :=
  {| fsm_state := fsm_state m; fsm_data := fsm_data m; disk := d;
     dirs := ds; owned := o; reading := r;
     trace := trace m;
     video_path := video_path m; audio_path := audio_path m |}.

Definition with_fsm (s : option TranscriptionStates) (d : gmap str str)
    (m : Machine) : Machine :=
  {| fsm_state := s; fsm_data := d; disk := disk m;
     dirs := dirs m; owned := owned m; reading := reading m;
     trace := trace m;
     video_path := video_path m; audio_path := audio_path m |}.

(** A call answered by the environment. *)
Definition invoke {A} (ev : Event) (r : outcome A) : M A := fun m =>
  (record ev m, match r with Returns a => Val a | Raises e => Exc e end).

(** A call that writes the file [path].  When it returns, [path] is a
    regular file the handler wrote and nothing reads; when it raises having
    left a file behind, [path] is a regular file of which no more is known;
    when it raises without a file, as it does with a directory at [path],
    the file system is as it was. *)
Definition invoke_write (ev : Event) (path : str) (r : written) : M unit :=
  fun m =>
    match r with
    | Written =>
      (with_files ({[path]} ∪ disk m) (dirs m ∖ {[path]})
         ({[path]} ∪ owned m) (reading m ∖ {[path]}) (record ev m), Val tt)
    | Partial e =>
      (with_files ({[path]} ∪ disk m) (dirs m ∖ {[path]})
         (owned m ∖ {[path]}) (reading m) (record ev m), Exc e)
    | NotWritten e => (record ev m, Exc e)
    end.

(** [os.makedirs(dir, exist_ok=True)]: when it returns, [dir] is a
    directory. *)
Definition invoke_makedirs (ev : Event) (dir : str) (r : outcome unit) : M unit :=
  fun m =>
    match r with
    | Returns _ =>
      (with_files (disk m) ({[dir]} ∪ dirs m) (owned m) (reading m)
         (record ev m), Val tt)
    | Raises e => (record ev m, Exc e)
    end.

(** Opening a clip on the file [path]: from the call on, whether it returns
    or raises, a reader may be left on the file. *)
Definition invoke_open (ev : Event) (path : str) (r : outcome unit) : M unit :=
  fun m =>
    (with_files (disk m) (dirs m) (owned m) ({[path]} ∪ reading m)
       (record ev m),
     match r with Returns a => Val a | Raises e => Exc e end).

(** Closing the clip on the file [path]: when it returns, no reader is left
    on the file. *)
Definition invoke_close (ev : Event) (path : str) (r : outcome unit) : M unit :=
  fun m =>
    match r with
    | Returns _ =>
      (with_files (disk m) (dirs m) (owned m) (reading m ∖ {[path]})
         (record ev m), Val tt)
    | Raises e => (record ev m, Exc e)
    end.

(** [print] *)
Definition print (line : str) : M unit := fun m => (record (EPrint line) m, Val tt).

(** *** The FSM context

    [state] is aiogram's [FSMContext] over the in-memory storage the
    dispatcher is created with: [update_data] sets keys of the data
    dictionary and keeps the others, [set_state] stores the state,
    [get_data] reads the dictionary, and [clear] leaves no state and an
    empty dictionary.  None of them raises. *)

Definition update_data (k v : str) : M unit := fun m =>
  (with_fsm (fsm_state m) (<[k := v]> (fsm_data m)) m, Val tt).

Definition set_state (s : option TranscriptionStates) : M unit := fun m =>
  (with_fsm s (fsm_data m) m, Val tt).

Definition get_data : M (gmap str str) := fun m => (m, Val (fsm_data m)).

Definition clear : M unit := fun m => (with_fsm None ∅ m, Val tt).

(** *** The scratch files *)

(** [os.path.exists(p)]: true for a regular file and for a directory. *)
Definition os_path_exists (p : str) : M bool := fun m =>
  (m, Val (bool_decide ((p ∈ disk m) \/ (p ∈ dirs m)))).

(** [os.remove(p)], with [r] what the environment answers when it is asked.
    A directory at [p] raises, and so does a path that holds nothing.  A
    regular file the handlers wrote and hold no reader on is removed; for
    any other regular file the environment decides. *)
Definition remove (p : str) (r : outcome unit) : M unit := fun m =>
  if bool_decide (p ∈ dirs m) then (m, Exc IsADirectoryError)
  else if bool_decide (p ∈ disk m) then
    if bool_decide ((p ∈ owned m) /\ (p ∉ reading m)) then
      (with_files (disk m ∖ {[p]}) (dirs m) (owned m ∖ {[p]}) (reading m) m,
       Val tt)
    else
      match r with
      | Returns _ =>
        (with_files (disk m ∖ {[p]}) (dirs m) (owned m ∖ {[p]}) (reading m) m,
         Val tt)
      | Raises e => (m, Exc e)
      end
  else (m, Exc FileNotFoundError).

(** *** The two locals of [process_language_choice] *)

Definition set_video_path (p : option str) : M unit := fun m =>
  ({| fsm_state := fsm_state m; fsm_data := fsm_data m; disk := disk m;
      dirs := dirs m; owned := owned m; reading := reading m;
      trace := trace m; video_path := p; audio_path := audio_path m |}, Val tt).

Definition set_audio_path (p : option str) : M unit := fun m =>
  ({| fsm_state := fsm_state m; fsm_data := fsm_data m; disk := disk m;
      dirs := dirs m; owned := owned m; reading := reading m;
      trace := trace m; video_path := video_path m; audio_path := p |}, Val tt).

Definition get_video_path : M (option str) := fun m => (m, Val (video_path m)).
Definition get_audio_path : M (option str) := fun m => (m, Val (audio_path m)).

(** ** The handlers of [main.py] *)

Definition video_file_id : str := lit "video_file_id".
Definition downloads : str := lit "downloads".

Definition size_limit : Z := 20 * 1024 * 1024.

Definition too_big_text : str :=
  lit "❌ Этот файл слишком большой." ++ newline
  ++ lit "Я могу обрабатывать видео размером до 20 МБ.".

Definition welcome_text : str :=
  lit "Привет!" ++ newline
  ++ lit "Я готов транскрибировать и переводить видео." ++ newline ++ newline
  ++ lit "Просто отправь мне видеофайл.".

Definition ask_language_text : str := lit "На каком языке речь в видео?".

Definition accepted_text (lang : str) : str :=
  lit "Принято: '" ++ lang ++ lit "'. Начинаю обработку...".

Definition no_speech_text : str := lit "Не удалось распознать речь в видео.".

Definition response_text (lang transcribed_text translated_text : str) : str :=
  lit "**Оригинал (" ++ lang ++ lit "):**" ++ newline ++ transcribed_text
  ++ newline ++ newline
  ++ lit "**Перевод (ru):**" ++ newline ++ translated_text.

Definition failure_text : str := lit "Произошла ошибка при обработке видео.".

Definition error_line (e : exn) : str := lit "Произошла ошибка: " ++ exn_str e.

Definition mp4_path (fid : option str) : str :=
  downloads ++ lit "/" ++ format_opt fid ++ lit ".mp4".

Definition mp3_path (fid : option str) : str :=
  downloads ++ lit "/" ++ format_opt fid ++ lit ".mp3".

(** [x > n] where [x] may be [None]: comparing [None] with an int raises. *)
Definition gt_int (x : option Z) (n : Z) : M bool :=
  match x with
  | Some z => mret (n <? z)%Z
  | None => raise TypeError
  end.

(** [x.split('_')] where [x] may be [None]. *)
Definition split_underscore (x : option str) : M (list str) :=
  match x with
  | Some s => mret (split underscore s)
  | None => raise AttributeError
  end.

(** [l[i]] *)
Definition getitem (l : list str) (i : nat) : M str :=
  match l !! i with
  | Some x => mret x
  | None => raise IndexError
  end.

Section Handlers.

Variable env : Env.

Definition reply (body : str) (markup : option InlineKeyboardMarkup) : M unit :=
  invoke (EReply body markup) (message_reply env body markup).

Definition answer : M unit := invoke EAnswer (callback_answer env).

Definition edit_text (body : str) : M unit :=
  invoke (EEditText body) (message_edit_text env body).

(** [@dp.message(CommandStart()) async def send_welcome(message)] *)
Definition send_welcome : M unit :=
  def (reply welcome_text None).

(** [@dp.message(F.video) async def handle_video(message, state)], on the
    video of the message. *)
Definition handle_video (video : Video) : M unit :=
  def (
    big ← gt_int (file_size video) size_limit;
    (if big : bool then reply too_big_text None;; return_ else mret tt);;
    update_data video_file_id (file_id video);;
    reply ask_language_text (Some language_keyboard);;
    set_state (Some WaitingForLanguageChoice)).

(** The body of the [try] block. *)
Definition pipeline (lang : str) (fid : option str) : M unit :=
  file ← invoke (EGetFile fid) (bot_get_file env fid);
  let video := mp4_path fid in
  let audio := mp3_path fid in
  set_video_path (Some video);;
  set_audio_path (Some audio);;
  invoke_makedirs (EMakedirs downloads) downloads (os_makedirs env downloads);;
  invoke_write (EDownloadFile (file_path file) video) video
    (bot_download_file env (file_path file) video);;
  invoke_open (EVideoFileClip video) video (VideoFileClip env video);;
  invoke_write (EWriteAudiofile audio) audio (write_audiofile env video audio);;
  invoke_close EClose video (video_clip_close env video);;
  transcribed_text ← invoke (ETranscribe audio lang) (model_transcribe env audio lang);
  (if truthy (strip transcribed_text) then mret tt
   else edit_text no_speech_text;; return_);;
  invoke (EGoogleTranslator lang (lit "ru")) (GoogleTranslator env lang (lit "ru"));;
  translated_text ← invoke (ETranslate transcribed_text)
    (translator_translate env lang (lit "ru") transcribed_text);
  edit_text (response_text lang transcribed_text translated_text).

(** The [except Exception as e] block. *)
Definition on_exception (e : exn) : M unit :=
  print (error_line e);;
  edit_text failure_text.

(** [if path and os.path.exists(path): os.remove(path)] *)
Definition remove_if_exists (path : option str) : M unit :=
  match path with
  | Some p =>
    if truthy p then
      there ← os_path_exists p;
      if there : bool then remove p (os_remove env p) else mret tt
    else mret tt
  | None => mret tt
  end.

(** The [finally] block. *)
Definition cleanup : M unit :=
  video ← get_video_path;
  remove_if_exists video;;
  audio ← get_audio_path;
  remove_if_exists audio;;
  clear.

(** [async def process_language_choice(callback, state)] *)
Definition process_language_choice (callback : CallbackQuery) : M unit :=
  def (
    pieces ← split_underscore (data callback);
    lang ← getitem pieces 1;
    user_data ← get_data;
    let fid := user_data !! video_file_id in
    answer;;
    edit_text (accepted_text lang);;
    set_video_path None;;
    set_audio_path None;;
    try_except_finally (pipeline lang fid) on_exception cleanup).

(** [@dp.callback_query(TranscriptionStates.WaitingForLanguageChoice)]: the
    dispatcher runs the handler only for a user in that state; in any other
    state no handler of this program takes the event. *)
Definition on_callback_query (callback : CallbackQuery) : M unit := fun m =>
  match fsm_state m with
  | Some WaitingForLanguageChoice => process_language_choice callback m
  | None => (m, Val tt)
  end.

End Handlers.

(** ** Vocabulary for the statements *)

(** The machine on which the [try] statement of [process_language_choice]
    starts: the callback has been answered, the prompt replaced by the
    processing notice, and both path variables are [None]. *)
Definition started (lang : str) (m : Machine) : Machine :=
  {| fsm_state := fsm_state m; fsm_data := fsm_data m; disk := disk m;
     dirs := dirs m; owned := owned m; reading := reading m;
     trace := trace m ++ [EAnswer; EEditText (accepted_text lang)];
     video_path := None; audio_path := None |}.

(** The statements before the [try] block return, with [lang] the chosen
    language. *)
Definition prelude_returns (env : Env) (callback : CallbackQuery) (lang : str) : Prop :=
  exists d, data callback = Some d
    /\ split underscore d !! 1%nat = Some lang
    /\ callback_answer env = Returns tt
    /\ message_edit_text env (accepted_text lang) = Returns tt.

(** A statement before the [try] block raises [e]: the split of missing
    data, the index into the pieces of data without an underscore, the
    answer to the callback, or the edit of the prompt message. *)
Inductive prelude_raises (env : Env) (callback : CallbackQuery) : exn -> Prop :=
| no_data :
    data callback = None -> prelude_raises env callback AttributeError
| no_underscore d :
    data callback = Some d -> underscore ∉ d ->
    prelude_raises env callback IndexError
| answer_raises d lang e :
    data callback = Some d -> split underscore d !! 1%nat = Some lang ->
    callback_answer env = Raises e -> prelude_raises env callback e
| edit_raises d lang e :
    data callback = Some d -> split underscore d !! 1%nat = Some lang ->
    callback_answer env = Returns tt ->
    message_edit_text env (accepted_text lang) = Raises e ->
    prelude_raises env callback e.

(** A call that writes a file raises [e]. *)
Definition write_raises (r : written) (e : exn) : Prop :=
  r = Partial e \/ r = NotWritten e.

(** The fetch and the download return. *)
Definition downloaded (env : Env) (fid : option str) (file : File) : Prop :=
  bot_get_file env fid = Returns file
  /\ os_makedirs env downloads = Returns tt
  /\ bot_download_file env (file_path file) (mp4_path fid) = Written.

(** The download and the extraction of the audio track return. *)
Definition extracted (env : Env) (fid : option str) (file : File) : Prop :=
  downloaded env fid file
  /\ VideoFileClip env (mp4_path fid) = Returns tt
  /\ write_audiofile env (mp4_path fid) (mp3_path fid) = Written
  /\ video_clip_close env (mp4_path fid) = Returns tt.

(** Download and extraction return and recognition returns the transcript
    [t]. *)
Definition recognized (env : Env) (lang : str) (fid : option str)
    (file : File) (t : str) : Prop :=
  extracted env fid file
  /\ model_transcribe env (mp3_path fid) lang = Returns t.

(** The exception [e] is raised by the fetch or download of the file, by
    the extraction of the audio, by recognition or by translation, every
    call before it having returned. *)
Inductive raised_during (env : Env) (lang : str) (fid : option str) : exn -> Prop :=
| fetch_raises e :
    bot_get_file env fid = Raises e -> raised_during env lang fid e
| makedirs_raises file e :
    bot_get_file env fid = Returns file ->
    os_makedirs env downloads = Raises e -> raised_during env lang fid e
| download_raises file e :
    bot_get_file env fid = Returns file ->
    os_makedirs env downloads = Returns tt ->
    write_raises (bot_download_file env (file_path file) (mp4_path fid)) e ->
    raised_during env lang fid e
| clip_raises file e :
    downloaded env fid file ->
    VideoFileClip env (mp4_path fid) = Raises e -> raised_during env lang fid e
| audio_raises file e :
    downloaded env fid file ->
    VideoFileClip env (mp4_path fid) = Returns tt ->
    write_raises (write_audiofile env (mp4_path fid) (mp3_path fid)) e ->
    raised_during env lang fid e
| close_raises file e :
    downloaded env fid file ->
    VideoFileClip env (mp4_path fid) = Returns tt ->
    write_audiofile env (mp4_path fid) (mp3_path fid) = Written ->
    video_clip_close env (mp4_path fid) = Raises e -> raised_during env lang fid e
| transcribe_raises file e :
    extracted env fid file ->
    model_transcribe env (mp3_path fid) lang = Raises e ->
    raised_during env lang fid e
| translator_raises file t e :
    recognized env lang fid file t -> truthy (strip t) = true ->
    GoogleTranslator env lang (lit "ru") = Raises e ->
    raised_during env lang fid e
| translate_raises file t e :
    recognized env lang fid file t -> truthy (strip t) = true ->
    GoogleTranslator env lang (lit "ru") = Returns tt ->
    translator_translate env lang (lit "ru") t = Raises e ->
    raised_during env lang fid e.

(** The files the [finally] block removes for a value of a path variable. *)
Definition path_set (p : option str) : gset str :=
  match p with
  | Some s => if truthy s then {[s]} else ∅
  | None => ∅
  end.

Definition scratch (m : Machine) : gset str :=
  path_set (video_path m) ∪ path_set (audio_path m).

(** [os.remove(p)] does not raise on the machine [m] if it is called for a
    [p] that exists: there is no directory at [p], and a regular file at
    [p] is one the handlers wrote and hold no reader on, or one the
    environment lets go. *)
Definition removable (env : Env) (m : Machine) (p : str) : Prop :=
  (p ∉ dirs m)
  /\ (p ∈ disk m ->
      ((p ∈ owned m) /\ (p ∉ reading m)) \/ os_remove env p = Returns tt).

Definition scratch_removable (env : Env) (m : Machine) : Prop :=
  forall p, p ∈ scratch m -> removable env m p.

(** The [os.remove] calls of the [finally] block of a cycle for the
    reference [fid] do not raise: neither scratch path is a directory when
    the cycle starts, and the environment lets both files go. *)
Definition removal_returns (env : Env) (fid : option str) (m : Machine) : Prop :=
  (mp4_path fid ∉ dirs m) /\ (mp3_path fid ∉ dirs m)
  /\ os_remove env (mp4_path fid) = Returns tt
  /\ os_remove env (mp3_path fid) = Returns tt.

Definition is_fetch (ev : Event) : bool :=
  match ev with
  | EGetFile _ | EDownloadFile _ _ => true
  | _ => false
  end.

Definition is_download (ev : Event) : bool :=
  match ev with
  | EDownloadFile _ _ => true
  | _ => false
  end.

Definition is_translator_call (ev : Event) : bool :=
  match ev with
  | EGoogleTranslator _ _ | ETranslate _ => true
  | _ => false
  end.

(** The source language an event hands to recognition or translation. *)
Definition language_of (ev : Event) : option str :=
  match ev with
  | ETranscribe _ l => Some l
  | EGoogleTranslator s _ => Some s
  | _ => None
  end.

(** The [os.remove] calls of the [finally] block of a cycle for the
    reference [fid] get through, for one of three reasons: the environment
    lets both scratch files go and neither path is a directory; or download
    and extraction returned, so that both files were just written by the
    cycle and the clip is closed; or the fetch raised, so that the path
    variables are still [None] and nothing is to be removed. *)
Definition removal_gets_through (env : Env) (fid : option str) (m : Machine) : Prop :=
  removal_returns env fid m
  \/ (exists file, extracted env fid file)
  \/ (exists e, bot_get_file env fid = Raises e).

(** What the events of the [try] block after the fetch are: recognition and
    translation are handed [lang], the translator is reached only with a
    transcript that is not blank, and the failure notice is not among them. *)
Definition stage_ok (env : Env) (lang : str) (fid : option str) (ev : Event) : Prop :=
  (forall l, language_of ev = Some l -> l = lang)
  /\ (is_translator_call ev = true ->
      exists t, model_transcribe env (mp3_path fid) lang = Returns t
                /\ truthy (strip t) = true)
  /\ ev <> EEditText failure_text.

(** The substring after the first occurrence of [sep] in [s], if there is
    one: the language code as the specification words it, to be compared
    with the piece [split] yields. *)
Fixpoint after_first (sep : N) (s : str) : option str :=
  match s with
  | [] => None
  | c :: r => if c =? sep then Some r else after_first sep r
  end.


Definition is_get_file (ev : Event) : bool :=
  match ev with
  | EGetFile _ => true
  | _ => false
  end.

(** What the events of the [try] block after the fetch are, as to files:
    none of them is another fetch, and a download goes to the video path of
    the reference. *)
Definition tail_ok (fid : option str) (ev : Event) : Prop :=
  is_get_file ev = false
  /\ (forall src dst, ev = EDownloadFile src dst -> dst = mp4_path fid).


(** The machines reached from a user without state and data by running the
    three handlers one after the other, each run in an environment of its
    own. *)
Inductive reachable : Machine -> Prop :=
| reach_fresh m :
    fsm_state m = None -> fsm_data m = ∅ -> reachable m
| reach_start env m :
    reachable m -> reachable (send_welcome env m).1
| reach_video env video m :
    reachable m -> reachable (handle_video env video m).1
| reach_callback env callback m :
    reachable m -> reachable (on_callback_query env callback m).1.

(** ** Example environment and machines *)

Module Examples.

(** Every call returns; whisper hears "hello". *)
Definition ok_env : Env := {|
  message_reply := fun _ _ => Returns tt;
  callback_answer := Returns tt;
  message_edit_text := fun _ => Returns tt;
  bot_get_file := fun _ => Returns {| file_path := Some (lit "videos/file_0.mp4") |};
  os_makedirs := fun _ => Returns tt;
  os_remove := fun _ => Returns tt;
  bot_download_file := fun _ _ => Written;
  VideoFileClip := fun _ => Returns tt;
  write_audiofile := fun _ _ => Written;
  video_clip_close := fun _ => Returns tt;
  model_transcribe := fun _ _ => Returns (lit "hello");
  GoogleTranslator := fun _ _ => Returns tt;
  translator_translate := fun _ _ _ => Returns (lit "привет")
|}.

Definition network_down : exn :=
  Exception (lit "TelegramNetworkError") (lit "Request timeout error").

(** A fresh user: no state, no data, an empty scratch directory. *)
Definition idle : Machine := {|
  fsm_state := None; fsm_data := ∅; disk := ∅;
  dirs := ∅; owned := ∅; reading := ∅; trace := [];
  video_path := None; audio_path := None
|}.

(** A user who has sent the video [old] and has not chosen a language. *)
Definition pending (old : str) : Machine := {|
  fsm_state := Some WaitingForLanguageChoice;
  fsm_data := {[ video_file_id := old ]};
  disk := ∅; dirs := ∅; owned := ∅; reading := ∅; trace := [];
  video_path := None; audio_path := None
|}.

Definition small_video : Video :=
  {| file_id := lit "BAACAgIAAx0"; file_size := Some (5 * 1024 * 1024)%Z |}.

Definition large_video : Video :=
  {| file_id := lit "BAACAgIAAx7"; file_size := Some (25 * 1024 * 1024)%Z |}.

(** A user awaiting the language choice whose data holds no reference. *)
Definition awaiting_without_reference : Machine := {|
  fsm_state := Some WaitingForLanguageChoice; fsm_data := ∅;
  disk := ∅; dirs := ∅; owned := ∅; reading := ∅; trace := [];
  video_path := None; audio_path := None
|}.

(** [pending old] with a file already at the video path of [old]. *)
Definition stale (old : str) : Machine := {|
  fsm_state := Some WaitingForLanguageChoice;
  fsm_data := {[ video_file_id := old ]};
  disk := {[ mp4_path (Some old) ]};
  dirs := ∅; owned := ∅; reading := ∅; trace := [];
  video_path := None; audio_path := None
|}.

(** [pending old] with a directory at the video path of [old]. *)
Definition blocked (old : str) : Machine := {|
  fsm_state := Some WaitingForLanguageChoice;
  fsm_data := {[ video_file_id := old ]};
  disk := ∅; dirs := {[ mp4_path (Some old) ]};
  owned := ∅; reading := ∅; trace := [];
  video_path := None; audio_path := None
|}.

Definition press (d : string) : CallbackQuery := {| data := Some (lit d) |}.

Definition the_file : File := {| file_path := Some (lit "videos/file_0.mp4") |}.

End Examples.

Module Offline.

(** The chat transport is unreachable: sending a reply raises. *)
Definition env : Env := {|
  message_reply := fun _ _ => Raises Examples.network_down;
  callback_answer := callback_answer Examples.ok_env;
  message_edit_text := message_edit_text Examples.ok_env;
  bot_get_file := bot_get_file Examples.ok_env;
  os_makedirs := os_makedirs Examples.ok_env;
  os_remove := os_remove Examples.ok_env;
  bot_download_file := bot_download_file Examples.ok_env;
  VideoFileClip := VideoFileClip Examples.ok_env;
  write_audiofile := write_audiofile Examples.ok_env;
  video_clip_close := video_clip_close Examples.ok_env;
  model_transcribe := model_transcribe Examples.ok_env;
  GoogleTranslator := GoogleTranslator Examples.ok_env;
  translator_translate := translator_translate Examples.ok_env
|}.

End Offline.

Module Unanswered.

(** Answering the callback raises. *)
Definition env : Env := {|
  message_reply := message_reply Examples.ok_env;
  callback_answer := Raises Examples.network_down;
  message_edit_text := message_edit_text Examples.ok_env;
  bot_get_file := bot_get_file Examples.ok_env;
  os_makedirs := os_makedirs Examples.ok_env;
  os_remove := os_remove Examples.ok_env;
  bot_download_file := bot_download_file Examples.ok_env;
  VideoFileClip := VideoFileClip Examples.ok_env;
  write_audiofile := write_audiofile Examples.ok_env;
  video_clip_close := video_clip_close Examples.ok_env;
  model_transcribe := model_transcribe Examples.ok_env;
  GoogleTranslator := GoogleTranslator Examples.ok_env;
  translator_translate := translator_translate Examples.ok_env
|}.

End Unanswered.

Module Expired.

Definition bad_request : exn :=
  Exception (lit "TelegramBadRequest")
    (lit "Bad Request: wrong file_id or the file is temporarily unavailable").

(** The transport refuses to resolve any file reference. *)
Definition env : Env := {|
  message_reply := message_reply Examples.ok_env;
  callback_answer := callback_answer Examples.ok_env;
  message_edit_text := message_edit_text Examples.ok_env;
  bot_get_file := fun _ => Raises bad_request;
  os_makedirs := os_makedirs Examples.ok_env;
  os_remove := os_remove Examples.ok_env;
  bot_download_file := bot_download_file Examples.ok_env;
  VideoFileClip := VideoFileClip Examples.ok_env;
  write_audiofile := write_audiofile Examples.ok_env;
  video_clip_close := video_clip_close Examples.ok_env;
  model_transcribe := model_transcribe Examples.ok_env;
  GoogleTranslator := GoogleTranslator Examples.ok_env;
  translator_translate := translator_translate Examples.ok_env
|}.

End Expired.

Module Strict.

Definition validation_error : exn :=
  Exception (lit "ValidationError") (lit "file_id: Input should be a valid string").

(** The transport client refuses a missing file reference before any
    request is made, and resolves every other one. *)
Definition env : Env := {|
  message_reply := message_reply Examples.ok_env;
  callback_answer := callback_answer Examples.ok_env;
  message_edit_text := message_edit_text Examples.ok_env;
  bot_get_file := fun fid =>
    match fid with
    | Some _ => bot_get_file Examples.ok_env fid
    | None => Raises validation_error
    end;
  os_makedirs := os_makedirs Examples.ok_env;
  os_remove := os_remove Examples.ok_env;
  bot_download_file := bot_download_file Examples.ok_env;
  VideoFileClip := VideoFileClip Examples.ok_env;
  write_audiofile := write_audiofile Examples.ok_env;
  video_clip_close := video_clip_close Examples.ok_env;
  model_transcribe := model_transcribe Examples.ok_env;
  GoogleTranslator := GoogleTranslator Examples.ok_env;
  translator_translate := translator_translate Examples.ok_env
|}.

End Strict.

Module Corrupt.

Definition unreadable : exn :=
  Exception (lit "OSError") (lit "MoviePy error: failed to read the first frame of video file").

(** The downloaded video cannot be opened. *)
Definition env : Env := {|
  message_reply := message_reply Examples.ok_env;
  callback_answer := callback_answer Examples.ok_env;
  message_edit_text := message_edit_text Examples.ok_env;
  bot_get_file := bot_get_file Examples.ok_env;
  os_makedirs := os_makedirs Examples.ok_env;
  os_remove := os_remove Examples.ok_env;
  bot_download_file := bot_download_file Examples.ok_env;
  VideoFileClip := fun _ => Raises unreadable;
  write_audiofile := write_audiofile Examples.ok_env;
  video_clip_close := video_clip_close Examples.ok_env;
  model_transcribe := model_transcribe Examples.ok_env;
  GoogleTranslator := GoogleTranslator Examples.ok_env;
  translator_translate := translator_translate Examples.ok_env
|}.

End Corrupt.

Module Blocked.

(** The download cannot write its destination, which is a directory. *)
Definition env : Env := {|
  message_reply := message_reply Examples.ok_env;
  callback_answer := callback_answer Examples.ok_env;
  message_edit_text := message_edit_text Examples.ok_env;
  bot_get_file := bot_get_file Examples.ok_env;
  os_makedirs := os_makedirs Examples.ok_env;
  os_remove := os_remove Examples.ok_env;
  bot_download_file := fun _ _ => NotWritten IsADirectoryError;
  VideoFileClip := VideoFileClip Examples.ok_env;
  write_audiofile := write_audiofile Examples.ok_env;
  video_clip_close := video_clip_close Examples.ok_env;
  model_transcribe := model_transcribe Examples.ok_env;
  GoogleTranslator := GoogleTranslator Examples.ok_env;
  translator_translate := translator_translate Examples.ok_env
|}.

End Blocked.

Module Locked.

Definition no_audio : exn :=
  Exception (lit "AttributeError")
    (lit "'NoneType' object has no attribute 'write_audiofile'").

Definition in_use : exn :=
  Exception (lit "PermissionError")
    (lit "[WinError 32] The process cannot access the file because it is being used by another process").

(** The video has no audio track, so the extraction raises with the clip
    still open, and the platform does not unlink a file that is open. *)
Definition env : Env := {|
  message_reply := message_reply Examples.ok_env;
  callback_answer := callback_answer Examples.ok_env;
  message_edit_text := message_edit_text Examples.ok_env;
  bot_get_file := bot_get_file Examples.ok_env;
  os_makedirs := os_makedirs Examples.ok_env;
  os_remove := fun _ => Raises in_use;
  bot_download_file := bot_download_file Examples.ok_env;
  VideoFileClip := VideoFileClip Examples.ok_env;
  write_audiofile := fun _ _ => NotWritten no_audio;
  video_clip_close := video_clip_close Examples.ok_env;
  model_transcribe := model_transcribe Examples.ok_env;
  GoogleTranslator := GoogleTranslator Examples.ok_env;
  translator_translate := translator_translate Examples.ok_env
|}.

End Locked.

Module Silent.

(** Whisper hears nothing: the transcript is a space and a newline. *)
Definition env : Env := {|
  message_reply := message_reply Examples.ok_env;
  callback_answer := callback_answer Examples.ok_env;
  message_edit_text := message_edit_text Examples.ok_env;
  bot_get_file := bot_get_file Examples.ok_env;
  os_makedirs := os_makedirs Examples.ok_env;
  os_remove := os_remove Examples.ok_env;
  bot_download_file := bot_download_file Examples.ok_env;
  VideoFileClip := VideoFileClip Examples.ok_env;
  write_audiofile := write_audiofile Examples.ok_env;
  video_clip_close := video_clip_close Examples.ok_env;
  model_transcribe := fun _ _ => Returns (lit " " ++ newline);
  GoogleTranslator := GoogleTranslator Examples.ok_env;
  translator_translate := translator_translate Examples.ok_env
|}.

End Silent.

Module Undelivered.

(** Every call returns except the edit that carries the result. *)
Definition env : Env := {|
  message_reply := message_reply Examples.ok_env;
  callback_answer := callback_answer Examples.ok_env;
  message_edit_text := fun body =>
    if bool_decide (body = response_text (lit "en") (lit "hello") (lit "привет"))
    then Raises Examples.network_down
    else Returns tt;
  bot_get_file := bot_get_file Examples.ok_env;
  os_makedirs := os_makedirs Examples.ok_env;
  os_remove := os_remove Examples.ok_env;
  bot_download_file := bot_download_file Examples.ok_env;
  VideoFileClip := VideoFileClip Examples.ok_env;
  write_audiofile := write_audiofile Examples.ok_env;
  video_clip_close := video_clip_close Examples.ok_env;
  model_transcribe := model_transcribe Examples.ok_env;
  GoogleTranslator := GoogleTranslator Examples.ok_env;
  translator_translate := translator_translate Examples.ok_env
|}.

End Undelivered.

(** ** Strings *)

Lemma lstrip_nil_iff (s : str) : lstrip s = [] <-> forallb isspace s = true.
Proof.
  induction s as [|c r IH]; simpl; [tauto|].
  destruct (isspace c); simpl; [exact IH|].
  split; discriminate.
Qed.

Lemma lstrip_suffix (s : str) : exists pre, s = pre ++ lstrip s /\ forallb isspace pre = true.
Proof.
  induction s as [|c r [pre [E F]]]; simpl.
  - exists []. auto.
  - destruct (isspace c) eqn:Hc.
    + exists (c :: pre). simpl. rewrite Hc, F. split; [congruence|reflexivity].
    + exists []. auto.
Qed.

Lemma forallb_isspace_rev (s : str) : forallb isspace (rev s) = forallb isspace s.
Proof.
  induction s as [|c r IH]; simpl; [reflexivity|].
  rewrite forallb_app, IH. simpl. rewrite andb_true_r. apply andb_comm.
Qed.

(** [s.strip()] is empty exactly when [s] is empty or all white space. *)
Lemma strip_nil_iff (s : str) : strip s = [] <-> forallb isspace s = true.
Proof.
  unfold strip, rstrip. split.
  - intros H. apply (f_equal (@rev N)) in H. rewrite rev_involutive in H.
    simpl in H. apply lstrip_nil_iff in H.
    rewrite forallb_isspace_rev in H.
    destruct (lstrip_suffix s) as [pre [E F]].
    rewrite E, forallb_app, F, H. reflexivity.
  - intros H. apply lstrip_nil_iff in H. rewrite H. reflexivity.
Qed.

Lemma truthy_false_iff (s : str) : truthy s = false <-> s = [].
Proof. destruct s; simpl; split; congruence. Qed.

(** A string without the separator is one piece. *)
Lemma split_no_sep (sep : N) (s : str) : sep ∉ s -> split sep s = [s].
Proof.
  induction s as [|c r IH]; intros H; simpl; [reflexivity|].
  destruct (N.eqb_spec c sep) as [->|Hne].
  - exfalso. apply H. left.
  - rewrite IH; [reflexivity|]. intros Hin. apply H. right. exact Hin.
Qed.

(** [split] at the first separator: the first piece is what precedes it,
    the rest are the pieces of what follows it. *)
Lemma split_at_first (sep : N) (pre post : str) :
  sep ∉ pre -> split sep (pre ++ sep :: post) = pre :: split sep post.
Proof.
  induction pre as [|c r IH]; intros H; simpl.
  - rewrite N.eqb_refl. reflexivity.
  - destruct (N.eqb_spec c sep) as [->|Hne].
    + exfalso. apply H. left.
    + rewrite IH; [reflexivity|]. intros Hin. apply H. right. exact Hin.
Qed.

Lemma split_not_nil (sep : N) (s : str) : split sep s <> [].
Proof.
  destruct s as [|c r]; simpl; [discriminate|].
  destruct (c =? sep); [discriminate|]. destruct (split sep r); discriminate.
Qed.

(** ** Running the handlers *)

Ltac run :=
  cbv beta iota zeta delta
    [handle_video process_language_choice on_callback_query pipeline
     on_exception cleanup remove_if_exists def try_except_finally
     mbind M_bind mret M_ret raise return_ gt_int split_underscore getitem
     reply answer edit_text invoke invoke_write invoke_makedirs invoke_open
     invoke_close print
     update_data set_state get_data clear os_path_exists remove
     set_video_path set_audio_path get_video_path get_audio_path
     record with_files with_fsm];
  cbn [fsm_state fsm_data disk dirs owned reading trace video_path audio_path
       fst snd].

Example size_limit_bytes : size_limit = 20971520%Z.
Proof. reflexivity. Qed.

(** A video above the limit: one reply, nothing else. *)
Lemma handle_video_rejects env video n m :
  file_size video = Some n -> (size_limit < n)%Z ->
  handle_video env video m =
    (record (EReply too_big_text None) m,
     match message_reply env too_big_text None with
     | Returns _ => Val tt
     | Raises e => Exc e
     end).
Proof.
  intros Hsize Hbig. apply Z.ltb_lt in Hbig.
  run. rewrite Hsize, Hbig.
  destruct (message_reply env too_big_text None); reflexivity.
Qed.

(** A video within the limit: the identifier is stored, the question is
    asked, and the state is set once the question has been sent. *)
Lemma handle_video_accepts env video n m :
  file_size video = Some n -> (n <= size_limit)%Z ->
  handle_video env video m =
    let m1 := record (EReply ask_language_text (Some language_keyboard))
                (with_fsm (fsm_state m)
                   (<[video_file_id := file_id video]> (fsm_data m)) m) in
    match message_reply env ask_language_text (Some language_keyboard) with
    | Returns _ => (with_fsm (Some WaitingForLanguageChoice) (fsm_data m1) m1, Val tt)
    | Raises e => (m1, Exc e)
    end.
Proof.
  intros Hsize Hsmall. apply Z.ltb_ge in Hsmall.
  run. rewrite Hsize, Hsmall.
  destruct (message_reply env ask_language_text (Some language_keyboard));
    reflexivity.
Qed.

(** ** [handle_video] *)

(** C1: a video whose declared size exceeds 20 MiB gets the size-rejection
    reply and nothing else: the only call issued is that reply (so nothing
    is fetched or downloaded), the FSM data and state are as before (an Idle
    user stays Idle), the disk is untouched, and the handler returns once
    the reply is sent.  A video of at most 20 MiB has its identifier stored
    under [video_file_id] and the language question, with the keyboard, is
    the one call issued. *)
Theorem handle_video_size_gate env video n m :
  file_size video = Some n ->
  ((size_limit < n)%Z ->
     trace (handle_video env video m).1 = trace m ++ [EReply too_big_text None]
     /\ fsm_data (handle_video env video m).1 = fsm_data m
     /\ fsm_state (handle_video env video m).1 = fsm_state m
     /\ (fsm_state m = None -> fsm_state (handle_video env video m).1 = None)
     /\ disk (handle_video env video m).1 = disk m
     /\ (message_reply env too_big_text None = Returns tt ->
         (handle_video env video m).2 = Val tt))
  /\ ((n <= size_limit)%Z ->
     fsm_data (handle_video env video m).1
       = <[video_file_id := file_id video]> (fsm_data m)
     /\ trace (handle_video env video m).1
       = trace m ++ [EReply ask_language_text (Some language_keyboard)]).
Proof.
  intros Hsize. split; intros Hn.
  - rewrite (handle_video_rejects env video n m Hsize Hn). simpl.
    repeat split; auto. intros ->. reflexivity.
  - rewrite (handle_video_accepts env video n m Hsize Hn). simpl.
    destruct (message_reply env ask_language_text (Some language_keyboard));
      split; reflexivity.
Qed.

Lemma handle_video_size_gate_witness :
  (trace (handle_video Examples.ok_env Examples.large_video Examples.idle).1
     = [EReply too_big_text None]
   /\ fsm_state (handle_video Examples.ok_env Examples.large_video Examples.idle).1
     = None)
  /\ fsm_data (handle_video Examples.ok_env Examples.small_video Examples.idle).1
     = {[ video_file_id := file_id Examples.small_video ]}.
Proof.
  split.
  - destruct (handle_video_size_gate Examples.ok_env Examples.large_video
                (25 * 1024 * 1024)%Z Examples.idle eq_refl) as [Hbig _].
    destruct Hbig as (Ht & _ & _ & Hs & _); [reflexivity|].
    split; [exact Ht | exact (Hs eq_refl)].
  - destruct (handle_video_size_gate Examples.ok_env Examples.small_video
                (5 * 1024 * 1024)%Z Examples.idle eq_refl) as [_ Hsmall].
    destruct Hsmall as [Hd _]; [discriminate|]. exact Hd.
Defined.

(** C5, as the code has it: after an accepted video the stored file
    reference is the identifier of that video; the state is set to
    [WaitingForLanguageChoice] after the language question has been sent,
    so it is AwaitingLanguage when that reply returns, and the handler then
    returns; when the reply raises, the state is the one from before. *)
Theorem handle_video_accepted_session env video n m :
  file_size video = Some n -> (n <= size_limit)%Z ->
  fsm_data (handle_video env video m).1 !! video_file_id = Some (file_id video)
  /\ (message_reply env ask_language_text (Some language_keyboard) = Returns tt ->
      fsm_state (handle_video env video m).1 = Some WaitingForLanguageChoice
      /\ (handle_video env video m).2 = Val tt)
  /\ (forall e,
      message_reply env ask_language_text (Some language_keyboard) = Raises e ->
      fsm_state (handle_video env video m).1 = fsm_state m
      /\ (handle_video env video m).2 = Exc e).
Proof.
  intros Hsize Hn.
  rewrite (handle_video_accepts env video n m Hsize Hn). simpl.
  destruct (message_reply env ask_language_text (Some language_keyboard)) as [[]|e];
    simpl; (split; [apply lookup_insert_eq|]); split; try discriminate.
  - auto.
  - intros e' [= ->]. auto.
Qed.

Lemma handle_video_accepted_session_witness :
  fsm_data (handle_video Examples.ok_env Examples.small_video Examples.idle).1
    !! video_file_id = Some (file_id Examples.small_video)
  /\ fsm_state (handle_video Examples.ok_env Examples.small_video Examples.idle).1
    = Some WaitingForLanguageChoice.
Proof.
  destruct (handle_video_accepted_session Examples.ok_env Examples.small_video
              (5 * 1024 * 1024)%Z Examples.idle eq_refl) as (Hd & Hs & _).
  - discriminate.
  - split; [exact Hd | exact (proj1 (Hs eq_refl))].
Defined.


(** A 5 MiB video arrives for an Idle user while the transport cannot send
    the language question: the identifier is stored, the state is not
    AwaitingLanguage. *)
Lemma handle_video_accepted_not_awaiting :
  file_size Examples.small_video = Some (5 * 1024 * 1024)%Z
  /\ (5 * 1024 * 1024 <= size_limit)%Z
  /\ ~ (fsm_state (handle_video Offline.env Examples.small_video Examples.idle).1
          = Some WaitingForLanguageChoice
        /\ fsm_data (handle_video Offline.env Examples.small_video Examples.idle).1
             !! video_file_id = Some (file_id Examples.small_video)).
Proof.
  split; [reflexivity|]. split; [discriminate|].
  intros [Hstate _]. vm_compute in Hstate. discriminate.
Qed.

(** C7: a video accepted while an earlier one is pending replaces the stored
    reference: the data is the old data with [video_file_id] set to the new
    identifier, the key holds that identifier and nothing else (the earlier
    reference is not kept anywhere), and the user is still awaiting the
    language choice. *)
Theorem handle_video_overwrites_pending env video n old m :
  file_size video = Some n -> (n <= size_limit)%Z ->
  fsm_state m = Some WaitingForLanguageChoice ->
  fsm_data m !! video_file_id = Some old ->
  fsm_data (handle_video env video m).1
    = <[video_file_id := file_id video]> (fsm_data m)
  /\ (forall v, fsm_data (handle_video env video m).1 !! video_file_id = Some v
                <-> v = file_id video)
  /\ dom (fsm_data (handle_video env video m).1) = dom (fsm_data m)
  /\ fsm_state (handle_video env video m).1 = Some WaitingForLanguageChoice.
Proof.
  intros Hsize Hn Hstate Hold.
  rewrite (handle_video_accepts env video n m Hsize Hn). simpl.
  assert (Hdom : dom (<[video_file_id := file_id video]> (fsm_data m))
                 = dom (fsm_data m)).
  { rewrite dom_insert_L. apply subseteq_union_1_L, singleton_subseteq_l.
    apply elem_of_dom. eauto. }
  destruct (message_reply env ask_language_text (Some language_keyboard));
    simpl; repeat split; auto.
  all: try (rewrite lookup_insert_eq; congruence).
  all: try (intros ->; apply lookup_insert_eq).
Qed.

Lemma handle_video_overwrites_pending_witness :
  fsm_data (handle_video Examples.ok_env Examples.small_video
              (Examples.pending (file_id Examples.large_video))).1
    = <[video_file_id := file_id Examples.small_video]>
        {[ video_file_id := file_id Examples.large_video ]}.
Proof.
  apply (handle_video_overwrites_pending Examples.ok_env Examples.small_video
           (5 * 1024 * 1024)%Z (file_id Examples.large_video)
           (Examples.pending (file_id Examples.large_video))).
  - reflexivity.
  - discriminate.
  - reflexivity.
  - apply lookup_singleton_eq.
Defined.

(** C9: a size-rejected video writes nothing to the session: for a user
    awaiting the language choice with a pending reference, the state and
    the whole data dictionary, the pending reference included, are the same
    after the rejection. *)
Theorem handle_video_rejection_keeps_session env video n old m :
  file_size video = Some n -> (size_limit < n)%Z ->
  fsm_state m = Some WaitingForLanguageChoice ->
  fsm_data m !! video_file_id = Some old ->
  fsm_state (handle_video env video m).1 = Some WaitingForLanguageChoice
  /\ fsm_data (handle_video env video m).1 !! video_file_id = Some old
  /\ fsm_data (handle_video env video m).1 = fsm_data m.
Proof.
  intros Hsize Hn Hstate Hold.
  rewrite (handle_video_rejects env video n m Hsize Hn). simpl. auto.
Qed.

Lemma handle_video_rejection_keeps_session_witness :
  fsm_state (handle_video Examples.ok_env Examples.large_video
               (Examples.pending (file_id Examples.small_video))).1
    = Some WaitingForLanguageChoice
  /\ fsm_data (handle_video Examples.ok_env Examples.large_video
                 (Examples.pending (file_id Examples.small_video))).1
       !! video_file_id = Some (file_id Examples.small_video)
  /\ fsm_data (handle_video Examples.ok_env Examples.large_video
                 (Examples.pending (file_id Examples.small_video))).1
     = fsm_data (Examples.pending (file_id Examples.small_video)).
Proof.
  apply (handle_video_rejection_keeps_session Examples.ok_env Examples.large_video
           (25 * 1024 * 1024)%Z (file_id Examples.small_video)).
  - reflexivity.
  - reflexivity.
  - reflexivity.
  - apply lookup_singleton_eq.
Defined.

(** ** The [finally] block *)

#[local] Set Warnings "-clear-no-such-hyp".

Lemma truthy_mp4_path fid : truthy (mp4_path fid) = true.
Proof. reflexivity. Qed.

Lemma truthy_mp3_path fid : truthy (mp3_path fid) = true.
Proof. reflexivity. Qed.

Lemma remove_if_exists_cases env p m :
  exists m' r,
    remove_if_exists env p m = (m', r)
    /\ fsm_state m' = fsm_state m /\ fsm_data m' = fsm_data m
    /\ trace m' = trace m /\ video_path m' = video_path m
    /\ audio_path m' = audio_path m
    /\ dirs m' = dirs m /\ reading m' = reading m
    /\ ((r = Val tt
         /\ disk m' = disk m ∖ path_set p
         /\ (forall q, q ∉ path_set p -> (q ∈ owned m' <-> q ∈ owned m)))
        \/ (exists e, r = Exc e /\ m' = m))
    /\ ((forall q, q ∈ path_set p -> removable env m q) -> r = Val tt).
Proof.
  destruct p as [s|]; cbn [remove_if_exists path_set].
  2:{ exists m, (Val tt). repeat split; try reflexivity.
      left. split; [reflexivity|]. split; [set_solver|tauto]. }
  destruct (truthy s) eqn:Htruthy.
  2:{ exists m, (Val tt). repeat split; try reflexivity.
      left. split; [reflexivity|]. split; [set_solver|tauto]. }
  cbv beta iota delta [mbind M_bind os_path_exists remove mret M_ret].
  destruct (bool_decide ((s ∈ disk m) \/ (s ∈ dirs m))) eqn:Hthere.
  2:{ apply bool_decide_eq_false in Hthere.
      exists m, (Val tt). repeat split; try reflexivity.
      left. split; [reflexivity|]. split; [set_solver|tauto]. }
  destruct (bool_decide (s ∈ dirs m)) eqn:Hdir.
  { apply bool_decide_eq_true in Hdir.
    exists m, (Exc IsADirectoryError). repeat split; try reflexivity.
    - right. eauto.
    - intros Hok. destruct (Hok s) as [Hno _]; [set_solver|]. tauto. }
  apply bool_decide_eq_false in Hdir. apply bool_decide_eq_true in Hthere.
  assert (Hin : s ∈ disk m) by tauto.
  rewrite (bool_decide_eq_true_2 _ Hin).
  destruct (bool_decide ((s ∈ owned m) /\ (s ∉ reading m))) eqn:Hown.
  { eexists _, (Val tt). repeat split; try reflexivity.
    left. split; [reflexivity|]. split; [reflexivity|].
    intros q Hq. unfold with_files. cbn [owned]. set_solver. }
  apply bool_decide_eq_false in Hown.
  destruct (os_remove env s) as [[]|e] eqn:Horacle.
  - eexists _, (Val tt). repeat split; try reflexivity.
    left. split; [reflexivity|]. split; [reflexivity|].
    intros q Hq. unfold with_files. cbn [owned]. set_solver.
  - exists m, (Exc e). repeat split; try reflexivity.
    + right. eauto.
    + intros Hok. destruct (Hok s) as [_ Hgo]; [set_solver|].
      destruct (Hgo Hin) as [Hyes|Hyes]; [tauto|congruence].
Qed.

(** The [finally] block issues no call.  It either returns, having removed
    the files its two path variables name and cleared the FSM context, or
    raises from [os.remove] before [state.clear()], leaving the FSM context
    as it was.  It returns when every file it is to remove can be removed. *)
Lemma cleanup_cases env m :
  exists m' r,
    cleanup env m = (m', r)
    /\ trace m' = trace m /\ dirs m' = dirs m
    /\ ((r = Val tt /\ fsm_state m' = None /\ fsm_data m' = ∅
         /\ disk m' = disk m ∖ scratch m)
        \/ (exists e, r = Exc e /\ fsm_state m' = fsm_state m
                      /\ fsm_data m' = fsm_data m))
    /\ (scratch_removable env m -> r = Val tt).
Proof.
  unfold cleanup, scratch_removable, scratch.
  destruct (remove_if_exists_cases env (video_path m) m)
    as (m1 & r1 & E1 & S1 & F1 & T1 & _ & A1 & D1 & R1 & C1 & G1).
  cbv beta iota delta [mbind M_bind get_video_path get_audio_path].
  rewrite E1.
  destruct C1 as [(-> & K1 & O1)|(e & -> & ->)].
  - cbv beta iota.
    destruct (remove_if_exists_cases env (audio_path m1) m1)
      as (m2 & r2 & E2 & S2 & F2 & T2 & _ & _ & D2 & R2 & C2 & G2).
    rewrite E2.
    destruct C2 as [(-> & K2 & O2)|(e & -> & ->)].
    + cbv beta iota. eexists _, (Val tt).
      split; [reflexivity|]. unfold clear, with_fsm.
      cbn [trace dirs fsm_state fsm_data disk].
      split; [congruence|]. split; [congruence|].
      split; [|reflexivity].
      left. split; [reflexivity|]. split; [reflexivity|].
      split; [reflexivity|]. rewrite K2, K1, A1. set_solver.
    + cbv beta iota. exists m1, (Exc e).
      split; [reflexivity|]. split; [exact T1|]. split; [exact D1|].
      split; [right; eauto|].
      intros Hok. exfalso.
      assert (Hr : @Exc unit e = Val tt); [|discriminate Hr].
      apply G2. intros q Hq. rewrite A1 in Hq.
      destruct (Hok q) as [Hnd Hgo]; [set_solver|].
      split; [congruence|].
      intros Hin. rewrite K1 in Hin.
      apply elem_of_difference in Hin as [Hin Hnot].
      destruct (Hgo Hin) as [[Ho Hr]|Horacle]; [left|right; exact Horacle].
      split; [apply O1; assumption|congruence].
  - cbv beta iota. exists m, (Exc e).
    split; [reflexivity|]. split; [reflexivity|]. split; [reflexivity|].
    split; [right; eauto|].
    intros Hok. apply G1. intros q Hq. apply Hok. set_solver.
Qed.

(** ** The [except] block *)

Lemma on_exception_eq env e m :
  on_exception env e m =
    (record (EEditText failure_text) (record (EPrint (error_line e)) m),
     match message_edit_text env failure_text with
     | Returns _ => Val tt
     | Raises e' => Exc e'
     end).
Proof.
  run. destruct (message_edit_text env failure_text) as [[]|]; reflexivity.
Qed.

(** ** The [try] block *)

Lemma no_speech_not_failure : no_speech_text <> failure_text.
Proof. vm_compute. discriminate. Qed.

Lemma response_not_failure lang t tr : response_text lang t tr <> failure_text.
Proof.
  intros H. apply (f_equal (fun s => nth 0 s 0)) in H.
  vm_compute in H. discriminate.
Qed.

Lemma accepted_not_failure lang : accepted_text lang <> failure_text.
Proof.
  intros H. apply (f_equal (fun s => nth 2 s 0)) in H.
  vm_compute in H. discriminate.
Qed.

Ltac stage_ok_leaf :=
  split; [cbn [language_of]; intros ? ?; congruence|];
  split; [cbn [is_translator_call]; intros ?; first [discriminate | eauto]|];
  lazymatch goal with
  | |- EEditText no_speech_text <> _ =>
    intros [= Habs]; exact (no_speech_not_failure Habs)
  | |- EEditText (response_text _ _ _) <> _ =>
    intros [= Habs]; exact (response_not_failure _ _ _ Habs)
  | |- _ => discriminate
  end.

Ltac case_oracle :=
  match goal with
  | |- context [match ?o with _ => _ end] =>
    lazymatch o with
    | context [match _ with _ => _ end] => fail
    | _ => destruct o eqn:?
    end
  end;
  cbv beta iota;
  cbn [fsm_state fsm_data disk dirs owned reading trace video_path audio_path
       fst snd].

Lemma pipeline_spec env lang fid m :
  fsm_state (pipeline env lang fid m).1 = fsm_state m
  /\ fsm_data (pipeline env lang fid m).1 = fsm_data m
  /\ disk m ⊆ disk (pipeline env lang fid m).1
  /\ disk (pipeline env lang fid m).1 ⊆ {[mp4_path fid; mp3_path fid]} ∪ disk m
  /\ (exists evs, trace (pipeline env lang fid m).1 = trace m ++ EGetFile fid :: evs
                  /\ Forall (stage_ok env lang fid) evs)
  /\ ((exists e, bot_get_file env fid = Raises e
                /\ pipeline env lang fid m = (record (EGetFile fid) m, Exc e))
      \/ (exists file, bot_get_file env fid = Returns file
                /\ video_path (pipeline env lang fid m).1 = Some (mp4_path fid)
                /\ audio_path (pipeline env lang fid m).1 = Some (mp3_path fid))).
Proof.
  destruct (pipeline env lang fid m) as [m' r] eqn:E.
  revert E. run. repeat case_oracle.
  all: intros [= <- <-].
  all: cbn [fsm_state fsm_data disk dirs owned reading trace video_path audio_path
       fst snd].
  all: (split; [reflexivity|]).
  all: (split; [reflexivity|]).
  all: (split; [set_solver|]).
  all: (split; [set_solver|]).
  all: split.
  all: try (left; eexists; split; reflexivity).
  all: try (right; eexists; repeat split; reflexivity).
  all: rewrite <- ?app_assoc; cbn [app]; eexists; (split; [reflexivity|]).
  all: repeat (constructor; [stage_ok_leaf|]); constructor.
Qed.

Ltac feed :=
  repeat match goal with
         | H : ?o = _ |- context [match ?o with _ => _ end] =>
           rewrite H; cbv beta iota;
           cbn [fsm_state fsm_data disk dirs owned reading trace video_path audio_path
       fst snd]
         end.

(** An exception of the fetch, the download, the extraction, the
    recognition or the translation leaves the [try] block. *)
Lemma raised_during_pipeline env lang fid e m :
  raised_during env lang fid e -> (pipeline env lang fid m).2 = Exc e.
Proof.
  intros H. destruct H.
  all: repeat match goal with
              | H : recognized _ _ _ _ _ |- _ => destruct H as [? ?]
              | H : extracted _ _ _ |- _ => destruct H as (? & ? & ? & ?)
              | H : downloaded _ _ _ |- _ => destruct H as (? & ? & ?)
              | H : write_raises _ _ |- _ => destruct H
              end.
  all: run; feed; reflexivity.
Qed.

(** With the statements before it returning, the handler is its [try]
    statement run on [started]. *)
Lemma process_language_choice_prelude env callback lang m :
  prelude_returns env callback lang ->
  process_language_choice env callback m =
    def (try_except_finally
           (pipeline env lang (fsm_data m !! video_file_id))
           (on_exception env) (cleanup env)) (started lang m).
Proof.
  intros (d & Hd & Hl & Ha & He).
  cbv beta iota zeta delta
    [process_language_choice def mbind M_bind mret M_ret raise
     split_underscore getitem get_data answer edit_text invoke
     set_video_path set_audio_path record started].
  rewrite Hd. cbv beta iota. rewrite Hl. cbv beta iota.
  rewrite Ha. cbv beta iota. rewrite He. cbv beta iota.
  cbn [fsm_state fsm_data disk dirs owned reading trace video_path audio_path].
  rewrite <- app_assoc. reflexivity.
Qed.

(** The [try] statement as a whole.  Whatever the body did, an exception
    of the body is printed and answered by the failure notice, and the
    [finally] block adds no call.  Then either the [finally] block returns,
    with the files named by the path variables removed and the FSM context
    cleared, or it raises from [os.remove], and the FSM context is what the
    body left.  It returns when the scratch files can be removed. *)
Lemma try_statement_cases env lang fid m :
  let body := pipeline env lang fid m in
  let whole := def (try_except_finally (pipeline env lang fid)
                      (on_exception env) (cleanup env)) m in
  trace whole.1 = trace body.1 ++
       match body.2 with
       | Exc e => [EPrint (error_line e); EEditText failure_text]
       | _ => []
       end
  /\ dirs whole.1 = dirs body.1
  /\ ((fsm_state whole.1 = None
       /\ fsm_data whole.1 = ∅
       /\ disk whole.1 = disk body.1 ∖ scratch body.1
       /\ whole.2 =
            match body.2 with
            | Exc e => match message_edit_text env failure_text with
                       | Returns _ => Val tt
                       | Raises e' => Exc e'
                       end
            | _ => Val tt
            end)
      \/ (exists e, whole.2 = Exc e
                    /\ fsm_state whole.1 = fsm_state body.1
                    /\ fsm_data whole.1 = fsm_data body.1
                    /\ ~ scratch_removable env body.1)).
Proof.
  cbv zeta. unfold def, try_except_finally.
  destruct (pipeline env lang fid m) as [m1 r1]. cbn [fst snd].
  destruct r1 as [[]| |e].
  - destruct (cleanup_cases env m1) as (m3 & r3 & -> & T3 & D3 & C3 & G3).
    rewrite app_nil_r.
    destruct C3 as [(-> & S3 & F3 & K3)|(e & -> & S3 & F3)]; cbn [fst snd].
    + split; [exact T3|]. split; [exact D3|]. left. auto.
    + split; [exact T3|]. split; [exact D3|]. right. exists e.
      split; [reflexivity|]. split; [exact S3|]. split; [exact F3|].
      intros Hok. specialize (G3 Hok). discriminate G3.
  - destruct (cleanup_cases env m1) as (m3 & r3 & -> & T3 & D3 & C3 & G3).
    rewrite app_nil_r.
    destruct C3 as [(-> & S3 & F3 & K3)|(e & -> & S3 & F3)]; cbn [fst snd].
    + split; [exact T3|]. split; [exact D3|]. left. auto.
    + split; [exact T3|]. split; [exact D3|]. right. exists e.
      split; [reflexivity|]. split; [exact S3|]. split; [exact F3|].
      intros Hok. specialize (G3 Hok). discriminate G3.
  - rewrite on_exception_eq.
    set (m2 := record (EEditText failure_text) (record (EPrint (error_line e)) m1)).
    assert (T2 : trace m2 = trace m1 ++ [EPrint (error_line e); EEditText failure_text]).
    { unfold m2, record. cbn [trace]. rewrite <- app_assoc. reflexivity. }
    destruct (cleanup_cases env m2) as (m3 & r3 & -> & T3 & D3 & C3 & G3).
    change (dirs m2) with (dirs m1) in D3.
    change (disk m2) with (disk m1) in C3.
    change (scratch m2) with (scratch m1) in C3.
    change (fsm_state m2) with (fsm_state m1) in C3.
    change (fsm_data m2) with (fsm_data m1) in C3.
    change (scratch_removable env m2) with (scratch_removable env m1) in G3.
    rewrite T2 in T3.
    destruct C3 as [(-> & S3 & F3 & K3)|(e3 & -> & S3 & F3)].
    + destruct (message_edit_text env failure_text) as [[]|e']; cbn [fst snd];
        (split; [exact T3|]); (split; [exact D3|]); left; auto.
    + destruct (message_edit_text env failure_text) as [[]|e']; cbn [fst snd];
        (split; [exact T3|]); (split; [exact D3|]); right; exists e3;
        (split; [reflexivity|]); (split; [exact S3|]); (split; [exact F3|]);
        intros Hok; specialize (G3 Hok); discriminate G3.
Qed.

Lemma try_statement_trace env lang fid m :
  trace (def (try_except_finally (pipeline env lang fid)
                (on_exception env) (cleanup env)) m).1
    = trace (pipeline env lang fid m).1 ++
      match (pipeline env lang fid m).2 with
      | Exc e => [EPrint (error_line e); EEditText failure_text]
      | _ => []
      end.
Proof. exact (proj1 (try_statement_cases env lang fid m)). Qed.

(** When the scratch files the body leaves can be removed, the FSM context
    is cleared, the files named by the path variables are removed, and the
    handler returns unless the failure notice raised. *)
Lemma try_statement_spec env lang fid m :
  scratch_removable env (pipeline env lang fid m).1 ->
  let body := pipeline env lang fid m in
  let whole := def (try_except_finally (pipeline env lang fid)
                      (on_exception env) (cleanup env)) m in
  fsm_state whole.1 = None
  /\ fsm_data whole.1 = ∅
  /\ disk whole.1 = disk body.1 ∖ scratch body.1
  /\ trace whole.1 = trace body.1 ++
       match body.2 with
       | Exc e => [EPrint (error_line e); EEditText failure_text]
       | _ => []
       end
  /\ whole.2 =
       match body.2 with
       | Exc e => match message_edit_text env failure_text with
                  | Returns _ => Val tt
                  | Raises e' => Exc e'
                  end
       | _ => Val tt
       end.
Proof.
  intros Hok. cbv zeta.
  destruct (try_statement_cases env lang fid m) as (Ht & _ & Hcase).
  cbv zeta in Ht, Hcase.
  destruct Hcase as [(Hs & Hd & Hk & Hr)|(e & _ & _ & _ & Hno)].
  - auto.
  - destruct (Hno Hok).
Qed.

(** The FSM context after the [try] statement is cleared or what it was. *)
Lemma try_statement_fsm env lang fid m :
  let whole := def (try_except_finally (pipeline env lang fid)
                      (on_exception env) (cleanup env)) m in
  (fsm_state whole.1 = None /\ fsm_data whole.1 = ∅)
  \/ (fsm_state whole.1 = fsm_state m /\ fsm_data whole.1 = fsm_data m).
Proof.
  cbv zeta.
  destruct (try_statement_cases env lang fid m) as (_ & _ & Hcase).
  cbv zeta in Hcase.
  destruct (pipeline_spec env lang fid m) as (Hs & Hd & _).
  destruct Hcase as [(Hs' & Hd' & _)|(e & _ & Hs' & Hd' & _)].
  - left. auto.
  - right. split; congruence.
Qed.

(** ** [process_language_choice] *)

Lemma trace_started lang m :
  trace (started lang m) = trace m ++ [EAnswer; EEditText (accepted_text lang)].
Proof. reflexivity. Qed.

Lemma pending_reference old :
  fsm_data (Examples.pending old) !! video_file_id = Some old.
Proof. apply lookup_singleton_eq. Qed.

(** *** What the [finally] block can remove *)

Lemma scratch_started lang m : scratch (started lang m) = ∅.
Proof. unfold scratch. cbn. set_solver. Qed.

Lemma scratch_paths fid m :
  video_path m = Some (mp4_path fid) -> audio_path m = Some (mp3_path fid) ->
  scratch m = {[mp4_path fid; mp3_path fid]}.
Proof.
  intros Hv Ha. unfold scratch. rewrite Hv, Ha. unfold path_set.
  rewrite truthy_mp4_path, truthy_mp3_path. reflexivity.
Qed.

Lemma length_slash : length (lit "/") = 1%nat.
Proof. vm_compute. reflexivity. Qed.

Lemma mp4_path_not_downloads fid : mp4_path fid <> downloads.
Proof.
  intros H. apply (f_equal length) in H. unfold mp4_path in H.
  rewrite !length_app, length_slash in H. lia.
Qed.

Lemma mp3_path_not_downloads fid : mp3_path fid <> downloads.
Proof.
  intros H. apply (f_equal length) in H. unfold mp3_path in H.
  rewrite !length_app, length_slash in H. lia.
Qed.

(** The body creates no directory but the scratch directory. *)
Lemma pipeline_dirs env lang fid m :
  dirs (pipeline env lang fid m).1 ⊆ {[downloads]} ∪ dirs m.
Proof.
  destruct (pipeline env lang fid m) as [m' r] eqn:E.
  revert E. run. repeat case_oracle.
  all: intros [= <- <-].
  all: cbn [fsm_state fsm_data disk dirs owned reading trace video_path
            audio_path fst snd].
  all: set_solver.
Qed.

(** The scratch files of the body of a cycle: none when the fetch raised,
    the video and audio path when it returned. *)
Lemma pipeline_scratch env lang fid m :
  video_path m = None -> audio_path m = None ->
  scratch (pipeline env lang fid m).1 ⊆ {[mp4_path fid; mp3_path fid]}.
Proof.
  intros Hv Ha.
  destruct (pipeline_spec env lang fid m) as (_ & _ & _ & _ & _ & Hcase).
  destruct Hcase as [(e & _ & ->)|(file & _ & Hv' & Ha')].
  - cbn [fst]. change (scratch (record (EGetFile fid) m)) with (scratch m).
    unfold scratch. rewrite Hv, Ha. cbn [path_set]. set_solver.
  - rewrite (scratch_paths fid _ Hv' Ha'). reflexivity.
Qed.

(** With no directory at the scratch paths and an environment that lets
    both files go, the [finally] block of the cycle removes what it has to. *)
Lemma removal_returns_removable env lang fid m :
  removal_returns env fid (started lang m) ->
  scratch_removable env (pipeline env lang fid (started lang m)).1.
Proof.
  intros (Hd4 & Hd3 & Ho4 & Ho3) p Hp.
  apply (pipeline_scratch env lang fid (started lang m) eq_refl eq_refl) in Hp.
  pose proof (pipeline_dirs env lang fid (started lang m)) as Hdirs.
  pose proof (mp4_path_not_downloads fid) as H4.
  pose proof (mp3_path_not_downloads fid) as H3.
  apply elem_of_union in Hp as [Hp|Hp]; apply elem_of_singleton in Hp; subst p.
  - split; [|intros _; right; exact Ho4].
    intros Hin. apply Hdirs in Hin. set_solver.
  - split; [|intros _; right; exact Ho3].
    intros Hin. apply Hdirs in Hin. set_solver.
Qed.

(** After download and extraction returned, both scratch files were written
    by the cycle and the clip is closed: the [finally] block removes them
    whatever the environment. *)
Lemma extracted_removable env lang fid file m :
  extracted env fid file ->
  scratch_removable env (pipeline env lang fid m).1.
Proof.
  intros ((Hget & Hmk & Hdl) & Hclip & Haudio & Hclose).
  destruct (pipeline env lang fid m) as [m' r] eqn:E.
  revert E. run. feed. repeat case_oracle.
  all: intros [= <- <-].
  all: unfold scratch_removable, scratch, removable.
  all: cbn [fsm_state fsm_data disk dirs owned reading trace video_path
            audio_path fst snd path_set].
  all: rewrite truthy_mp4_path, truthy_mp3_path.
  all: pose proof (mp4_path_not_downloads fid) as H4.
  all: pose proof (mp3_path_not_downloads fid) as H3.
  all: intros p Hp; split; [|intros _; left]; set_solver.
Qed.

(** When the fetch raised, the path variables are still [None] and the
    [finally] block has nothing to remove. *)
Lemma fetch_raised_removable env lang fid e m :
  bot_get_file env fid = Raises e ->
  scratch_removable env (pipeline env lang fid (started lang m)).1.
Proof.
  intros Hget p Hp.
  destruct (pipeline_spec env lang fid (started lang m))
    as (_ & _ & _ & _ & _ & Hcase).
  destruct Hcase as [(e' & _ & Heq)|(file & Hget' & _)]; [|congruence].
  rewrite Heq in Hp. cbn [fst] in Hp.
  change (scratch (record (EGetFile fid) (started lang m)))
    with (scratch (started lang m)) in Hp.
  rewrite scratch_started in Hp. set_solver.
Qed.

Lemma gets_through_removable env lang fid m :
  removal_gets_through env fid m ->
  scratch_removable env (pipeline env lang fid (started lang m)).1.
Proof.
  intros [Hrem|[(file & Hex)|(e & Hget)]].
  - exact (removal_returns_removable env lang fid m Hrem).
  - exact (extracted_removable env lang fid file (started lang m) Hex).
  - exact (fetch_raised_removable env lang fid e m Hget).
Qed.

(** An exception of a stage of the cycle is printed and followed by the one
    failure notice.  After that, either the [finally] block returns and the
    FSM context is cleared, or [os.remove] raises in the [finally] block
    and the FSM context is the one from before the cycle. *)
Lemma stage_exception_reported env callback lang e m :
  prelude_returns env callback lang ->
  raised_during env lang (fsm_data m !! video_file_id) e ->
  (exists evs,
     trace (process_language_choice env callback m).1
       = trace m ++ [EAnswer; EEditText (accepted_text lang)]
         ++ EGetFile (fsm_data m !! video_file_id) :: evs
         ++ [EPrint (error_line e); EEditText failure_text]
     /\ Forall (fun ev => ev <> EEditText failure_text) evs)
  /\ ((fsm_state (process_language_choice env callback m).1 = None
       /\ fsm_data (process_language_choice env callback m).1 = ∅
       /\ (process_language_choice env callback m).2
          = match message_edit_text env failure_text with
            | Returns _ => Val tt
            | Raises e' => Exc e'
            end)
      \/ (exists e',
            (process_language_choice env callback m).2 = Exc e'
            /\ fsm_state (process_language_choice env callback m).1 = fsm_state m
            /\ fsm_data (process_language_choice env callback m).1 = fsm_data m)).
Proof.
  intros Hpre Hraise.
  rewrite (process_language_choice_prelude env callback lang m Hpre).
  set (fid := fsm_data m !! video_file_id) in *.
  destruct (try_statement_cases env lang fid (started lang m))
    as (Ht & _ & Hcase).
  cbv zeta in Ht, Hcase.
  rewrite (raised_during_pipeline env lang fid e (started lang m) Hraise)
    in Ht, Hcase.
  destruct (pipeline_spec env lang fid (started lang m))
    as (Hs & Hd & _ & _ & (evs & Hevs & Hall) & _).
  rewrite Hevs, trace_started in Ht.
  split.
  - exists evs. split.
    + rewrite Ht. rewrite <- !app_assoc. reflexivity.
    + eapply Forall_impl; [exact Hall|]. intros ev (_ & _ & Hne). exact Hne.
  - destruct Hcase as [(Hs' & Hd' & _ & Hr)|(e' & Hr & Hs' & Hd' & _)].
    + left. auto.
    + change (fsm_state (started lang m)) with (fsm_state m) in Hs.
      change (fsm_data (started lang m)) with (fsm_data m) in Hd.
      right. exists e'. split; [exact Hr|]. split; congruence.
Qed.

Lemma stage_exception_reported_witness :
  exists evs,
    trace (process_language_choice Corrupt.env (Examples.press "lang_en")
             (Examples.pending (lit "AB"))).1
      = [EAnswer; EEditText (accepted_text (lit "en"))]
        ++ EGetFile (Some (lit "AB")) :: evs
        ++ [EPrint (error_line Corrupt.unreadable); EEditText failure_text]
    /\ Forall (fun ev => ev <> EEditText failure_text) evs.
Proof.
  destruct (stage_exception_reported Corrupt.env (Examples.press "lang_en")
              (lit "en") Corrupt.unreadable (Examples.pending (lit "AB")))
    as ((evs & Ht & Hall) & _).
  - exists (lit "lang_en"). repeat split; reflexivity.
  - apply (clip_raises _ _ _ Examples.the_file).
    + rewrite pending_reference. repeat split; reflexivity.
    + reflexivity.
  - exists evs. rewrite pending_reference in Ht. split; [exact Ht | exact Hall].
Defined.

(** C3: a cycle whose download raises because a directory is at the video
    path.  The exception is caught, printed and answered by the one failure
    notice, as for every stage; but the [finally] block then calls
    [os.remove] on that path before [state.clear()], [os.remove] raises,
    and the session is not cleared: the user is still awaiting the language
    choice with the reference stored, and the handler ends with the
    exception of [os.remove]. *)
Theorem failed_download_leaves_session_pending :
  raised_during Blocked.env (lit "en") (Some (lit "AB")) IsADirectoryError
  /\ trace (process_language_choice Blocked.env (Examples.press "lang_en")
              (Examples.blocked (lit "AB"))).1
     = [EAnswer; EEditText (accepted_text (lit "en"));
        EGetFile (Some (lit "AB")); EMakedirs downloads;
        EDownloadFile (file_path Examples.the_file) (mp4_path (Some (lit "AB")));
        EPrint (error_line IsADirectoryError); EEditText failure_text]
  /\ (process_language_choice Blocked.env (Examples.press "lang_en")
        (Examples.blocked (lit "AB"))).2 = Exc IsADirectoryError
  /\ fsm_state (process_language_choice Blocked.env (Examples.press "lang_en")
                  (Examples.blocked (lit "AB"))).1
     = Some WaitingForLanguageChoice
  /\ fsm_data (process_language_choice Blocked.env (Examples.press "lang_en")
                 (Examples.blocked (lit "AB"))).1 !! video_file_id
     = Some (lit "AB").
Proof.
  split.
  { apply (download_raises _ _ _ Examples.the_file); [reflexivity..|].
    right. reflexivity. }
  split; [vm_compute; reflexivity|].
  split; [vm_compute; reflexivity|].
  split; [vm_compute; reflexivity|].
  vm_compute. reflexivity.
Qed.

(** The same with a clip left open: the video has no audio track, so the
    extraction raises before [video_clip.close()], and where an open file
    cannot be unlinked [os.remove] raises in the [finally] block. *)
Lemma open_clip_leaves_session_pending :
  raised_during Locked.env (lit "en") (Some (lit "AB")) Locked.no_audio
  /\ last (trace (process_language_choice Locked.env (Examples.press "lang_en")
                    (Examples.pending (lit "AB"))).1)
     = Some (EEditText failure_text)
  /\ (process_language_choice Locked.env (Examples.press "lang_en")
        (Examples.pending (lit "AB"))).2 = Exc Locked.in_use
  /\ fsm_state (process_language_choice Locked.env (Examples.press "lang_en")
                  (Examples.pending (lit "AB"))).1
     = Some WaitingForLanguageChoice.
Proof.
  split.
  { apply (audio_raises _ _ _ Examples.the_file).
    - repeat split; reflexivity.
    - reflexivity.
    - right. reflexivity. }
  split; [vm_compute; reflexivity|].
  split; [vm_compute; reflexivity|].
  vm_compute. reflexivity.
Qed.

(** C4, as the code has it: after a cycle whose [finally] block got through
    its [os.remove] calls, however the pipeline ended, the FSM context has
    no state and no data.  When the fetch of the file returned, so that the
    two paths were assigned, nothing is at either scratch path afterwards,
    whatever happened later; when the fetch raised, the [finally] block
    removes nothing and the disk is as it was, so the scratch files are
    absent exactly when they were absent before.  No other file is
    touched. *)
Theorem cycle_clears_session_and_scratch env callback lang m :
  prelude_returns env callback lang ->
  let fid := fsm_data m !! video_file_id in
  removal_gets_through env fid m ->
  let after := (process_language_choice env callback m).1 in
  fsm_state after = None
  /\ fsm_data after = ∅
  /\ fsm_data after !! video_file_id = None
  /\ (forall file, bot_get_file env fid = Returns file ->
      (mp4_path fid ∉ disk after) /\ (mp3_path fid ∉ disk after)
      /\ (mp4_path fid ∉ dirs after) /\ (mp3_path fid ∉ dirs after))
  /\ (forall e, bot_get_file env fid = Raises e -> disk after = disk m)
  /\ (mp4_path fid ∉ disk m -> mp3_path fid ∉ disk m ->
      (mp4_path fid ∉ disk after) /\ (mp3_path fid ∉ disk after))
  /\ (forall p, p <> mp4_path fid -> p <> mp3_path fid ->
      (p ∈ disk after) <-> (p ∈ disk m)).
Proof.
  intros Hpre fid Hrem after. subst after.
  rewrite (process_language_choice_prelude env callback lang m Hpre).
  fold fid.
  pose proof (gets_through_removable env lang fid m Hrem) as Hok.
  destruct (try_statement_spec env lang fid (started lang m) Hok)
    as (Hs & Hd & Hk & _ & _).
  cbv zeta in Hk.
  destruct (try_statement_cases env lang fid (started lang m))
    as (_ & Hdirs & _).
  cbv zeta in Hdirs.
  destruct (pipeline_spec env lang fid (started lang m))
    as (_ & _ & Hlo & Hhi & _ & Hcase).
  change (disk (started lang m)) with (disk m) in Hlo, Hhi.
  split; [exact Hs|]. split; [exact Hd|].
  split; [rewrite Hd; apply lookup_empty|].
  rewrite Hk, Hdirs. clear Hk Hs Hd Hdirs Hrem.
  destruct Hcase as [(e & Hget & Heq)|(file & Hget & Hv & Ha)].
  - clear Hok. rewrite Heq in *. cbn [fst] in *.
    change (scratch (record (EGetFile fid) (started lang m)))
      with (scratch (started lang m)).
    rewrite scratch_started.
    change (disk (record (EGetFile fid) (started lang m))) with (disk m).
    replace (disk m ∖ ∅) with (disk m) by set_solver.
    split; [intros file Hfile; congruence|].
    repeat split; try tauto.
  - assert (H4 : mp4_path fid ∉ dirs (pipeline env lang fid (started lang m)).1).
    { apply Hok. rewrite (scratch_paths fid _ Hv Ha). set_solver. }
    assert (H3 : mp3_path fid ∉ dirs (pipeline env lang fid (started lang m)).1).
    { apply Hok. rewrite (scratch_paths fid _ Hv Ha). set_solver. }
    clear Hok. rewrite (scratch_paths fid _ Hv Ha).
    split; [intros file' _; repeat split; try assumption; set_solver|].
    clear H4 H3.
    repeat split; try set_solver. congruence.
Qed.

Lemma cycle_clears_session_and_scratch_witness :
  fsm_state (process_language_choice Corrupt.env (Examples.press "lang_en")
               (Examples.pending (lit "AB"))).1 = None
  /\ (mp4_path (Some (lit "AB"))
       ∉ disk (process_language_choice Corrupt.env (Examples.press "lang_en")
                 (Examples.pending (lit "AB"))).1).
Proof.
  destruct (cycle_clears_session_and_scratch Corrupt.env
              (Examples.press "lang_en") (lit "en") (Examples.pending (lit "AB")))
    as (Hs & _ & _ & Hgone & _).
  - exists (lit "lang_en"). repeat split; reflexivity.
  - cbv zeta. rewrite pending_reference. left.
    split; [apply not_elem_of_empty|]. split; [apply not_elem_of_empty|].
    split; reflexivity.
  - split; [exact Hs|].
    cbv zeta in Hgone. rewrite pending_reference in Hgone.
    exact (proj1 (Hgone Examples.the_file eq_refl)).
Defined.

(** The fetch fails for a user whose video path is already occupied: the
    session is cleared, the file is still there after the cycle. *)
Lemma stale_file_survives_failed_fetch :
  ~ (fsm_state (process_language_choice Expired.env (Examples.press "lang_en")
                  (Examples.stale (lit "AB"))).1 = None
     /\ fsm_data (process_language_choice Expired.env (Examples.press "lang_en")
                    (Examples.stale (lit "AB"))).1 !! video_file_id = None
     /\ (mp4_path (Some (lit "AB"))
          ∉ disk (process_language_choice Expired.env (Examples.press "lang_en")
                    (Examples.stale (lit "AB"))).1)
     /\ (mp3_path (Some (lit "AB"))
          ∉ disk (process_language_choice Expired.env (Examples.press "lang_en")
                    (Examples.stale (lit "AB"))).1)).
Proof.
  intros (_ & _ & Hgone & _). apply Hgone.
  refine (bool_decide_unpack _ _). vm_compute. exact I.
Qed.

(** C2, as the code has it: with no pending file reference the handler
    still calls [bot.get_file], handing it the missing reference [None];
    there is no guard before the [try] block.  When that call raises, no
    download is attempted: the exception is printed, the failure notice is
    sent, the FSM context is cleared and the disk is untouched. *)
Theorem absent_reference_still_fetched env callback lang m :
  prelude_returns env callback lang ->
  fsm_data m !! video_file_id = None ->
  (exists evs,
     trace (process_language_choice env callback m).1
       = trace m ++ [EAnswer; EEditText (accepted_text lang); EGetFile None] ++ evs)
  /\ (forall e, bot_get_file env None = Raises e ->
      trace (process_language_choice env callback m).1
        = trace m ++ [EAnswer; EEditText (accepted_text lang); EGetFile None;
                      EPrint (error_line e); EEditText failure_text]
      /\ fsm_state (process_language_choice env callback m).1 = None
      /\ fsm_data (process_language_choice env callback m).1 = ∅
      /\ disk (process_language_choice env callback m).1 = disk m).
Proof.
  intros Hpre Hnone.
  rewrite (process_language_choice_prelude env callback lang m Hpre), Hnone.
  pose proof (try_statement_trace env lang None (started lang m)) as Ht.
  destruct (pipeline_spec env lang None (started lang m))
    as (_ & _ & _ & _ & (evs & Hevs & _) & Hcase).
  split.
  - eexists. rewrite Ht, Hevs, trace_started, <- !app_assoc. reflexivity.
  - intros e He.
    destruct (try_statement_spec env lang None (started lang m)
                (fetch_raised_removable env lang None e m He))
      as (Hs & Hd & Hk & _ & _).
    cbv zeta in Hk.
    destruct Hcase as [(e' & Hget & Heq)|(file & Hget & _)]; [|congruence].
    assert (e' = e) as -> by congruence.
    rewrite Heq in Ht, Hk. cbn [fst snd] in Ht, Hk.
    change (scratch (record (EGetFile None) (started lang m)))
      with (scratch (started lang m)) in Hk.
    rewrite scratch_started in Hk.
    change (disk (record (EGetFile None) (started lang m))) with (disk m) in Hk.
    repeat split; auto.
    + rewrite Ht. unfold record. cbn [trace]. rewrite trace_started, <- !app_assoc.
      reflexivity.
    + rewrite Hk. set_solver.
Qed.

Lemma absent_reference_still_fetched_witness :
  trace (process_language_choice Strict.env (Examples.press "lang_en")
           Examples.awaiting_without_reference).1
    = [EAnswer; EEditText (accepted_text (lit "en")); EGetFile None;
       EPrint (error_line Strict.validation_error); EEditText failure_text].
Proof.
  destruct (absent_reference_still_fetched Strict.env (Examples.press "lang_en")
              (lit "en") Examples.awaiting_without_reference)
    as (_ & Hraise).
  - exists (lit "lang_en"). repeat split; reflexivity.
  - apply lookup_empty.
  - exact (proj1 (Hraise Strict.validation_error eq_refl)).
Defined.

(** A language is chosen while the data holds no file reference: the fetch
    is called all the same. *)
Lemma absent_reference_fetch_is_called :
  fsm_data Examples.awaiting_without_reference !! video_file_id = None
  /\ ~ (forall ev,
          ev ∈ trace (process_language_choice Strict.env
                        (Examples.press "lang_en")
                        Examples.awaiting_without_reference).1 ->
          is_fetch ev = false).
Proof.
  split; [apply lookup_empty|].
  intros H. specialize (H (EGetFile None)).
  assert (Hin : EGetFile None
                  ∈ trace (process_language_choice Strict.env
                             (Examples.press "lang_en")
                             Examples.awaiting_without_reference).1).
  { vm_compute. do 2 apply list_elem_of_further. apply list_elem_of_here. }
  specialize (H Hin). discriminate H.
Qed.

(** ** The blank transcript *)

Lemma blank_not_truthy (t : str) :
  forallb isspace t = true <-> truthy (strip t) = false.
Proof. rewrite truthy_false_iff. symmetry. apply strip_nil_iff. Qed.

Lemma pipeline_blank env lang fid file t m :
  recognized env lang fid file t -> truthy (strip t) = false ->
  trace (pipeline env lang fid m).1
    = trace m ++ [EGetFile fid; EMakedirs downloads;
                  EDownloadFile (file_path file) (mp4_path fid);
                  EVideoFileClip (mp4_path fid); EWriteAudiofile (mp3_path fid);
                  EClose; ETranscribe (mp3_path fid) lang;
                  EEditText no_speech_text]
  /\ (pipeline env lang fid m).2
     = match message_edit_text env no_speech_text with
       | Returns _ => Ret
       | Raises e => Exc e
       end.
Proof.
  intros (((Hget & Hmk & Hdl) & Hclip & Haudio & Hclose) & Htr) Hblank.
  run. feed.
  destruct (message_edit_text env no_speech_text);
    cbn [fst snd trace]; rewrite <- !app_assoc; split; reflexivity.
Qed.

(** C6: in a cycle whose transcript is empty or all white space the
    translator is neither constructed nor called, whatever else happens;
    when fetch, download and extraction returned, the calls of the cycle
    end with the "no speech" notice, which is not the failure notice, and
    the handler returns from there with the FSM context cleared. *)
Theorem blank_transcript_short_circuits env callback lang t m :
  prelude_returns env callback lang ->
  let fid := fsm_data m !! video_file_id in
  model_transcribe env (mp3_path fid) lang = Returns t ->
  forallb isspace t = true ->
  (exists evs,
     trace (process_language_choice env callback m).1 = trace m ++ evs
     /\ Forall (fun ev => is_translator_call ev = false) evs)
  /\ (forall file,
      extracted env fid file ->
      message_edit_text env no_speech_text = Returns tt ->
      trace (process_language_choice env callback m).1
        = trace m ++ [EAnswer; EEditText (accepted_text lang);
                      EGetFile fid; EMakedirs downloads;
                      EDownloadFile (file_path file) (mp4_path fid);
                      EVideoFileClip (mp4_path fid);
                      EWriteAudiofile (mp3_path fid); EClose;
                      ETranscribe (mp3_path fid) lang;
                      EEditText no_speech_text]
      /\ (process_language_choice env callback m).2 = Val tt
      /\ fsm_state (process_language_choice env callback m).1 = None
      /\ fsm_data (process_language_choice env callback m).1 = ∅)
  /\ no_speech_text <> failure_text.
Proof.
  intros Hpre fid Htr Hblank. apply blank_not_truthy in Hblank.
  rewrite (process_language_choice_prelude env callback lang m Hpre).
  fold fid.
  pose proof (try_statement_trace env lang fid (started lang m)) as Ht.
  split; [|split; [|exact no_speech_not_failure]].
  - destruct (pipeline_spec env lang fid (started lang m))
      as (_ & _ & _ & _ & (evs & Hevs & Hall) & _).
    eexists. split.
    + rewrite Ht, Hevs, trace_started, <- !app_assoc. reflexivity.
    + cbn [app]. repeat (constructor; [reflexivity|]).
      apply Forall_app. split.
      * eapply Forall_impl; [exact Hall|].
        intros ev (_ & Hcall & _).
        destruct (is_translator_call ev); [|reflexivity].
        destruct (Hcall eq_refl) as (t' & Ht' & Htruthy).
        congruence.
      * destruct ((pipeline env lang fid (started lang m)).2);
          repeat constructor.
  - intros file Hex Hedit.
    destruct (try_statement_spec env lang fid (started lang m)
                (extracted_removable env lang fid file (started lang m) Hex))
      as (Hs & Hd & _ & _ & Hr).
    cbv zeta in Hr.
    destruct (pipeline_blank env lang fid file t (started lang m))
      as (Htrace & Hres); [split; assumption | assumption |].
    rewrite Hedit in Hres. rewrite Hres in Ht, Hr.
    rewrite Ht, Htrace, trace_started, app_nil_r, <- !app_assoc.
    auto.
Qed.

Lemma blank_transcript_short_circuits_witness :
  trace (process_language_choice Silent.env (Examples.press "lang_en")
           (Examples.pending (lit "AB"))).1
    = [EAnswer; EEditText (accepted_text (lit "en"));
       EGetFile (Some (lit "AB")); EMakedirs downloads;
       EDownloadFile (file_path Examples.the_file) (mp4_path (Some (lit "AB")));
       EVideoFileClip (mp4_path (Some (lit "AB")));
       EWriteAudiofile (mp3_path (Some (lit "AB"))); EClose;
       ETranscribe (mp3_path (Some (lit "AB"))) (lit "en");
       EEditText no_speech_text].
Proof.
  destruct (blank_transcript_short_circuits Silent.env (Examples.press "lang_en")
              (lit "en") (lit " " ++ newline) (Examples.pending (lit "AB")))
    as (_ & Hexplicit & _).
  - exists (lit "lang_en"). repeat split; reflexivity.
  - reflexivity.
  - reflexivity.
  - cbv zeta in Hexplicit. rewrite pending_reference in Hexplicit.
    apply (Hexplicit Examples.the_file).
    + repeat split; reflexivity.
    + reflexivity.
Defined.

(** ** The statements before the [try] block *)

Lemma split_second_none (sep : N) (s : str) :
  split sep s !! 1%nat = None -> sep ∉ s.
Proof.
  induction s as [|c r IH]; simpl; intros H.
  - apply not_elem_of_nil.
  - destruct (N.eqb_spec c sep) as [->|Hne].
    + destruct (split sep r) eqn:E; [|discriminate H].
      exfalso. exact (split_not_nil sep r E).
    + destruct (split sep r) as [|piece pieces] eqn:E.
      * exfalso. exact (split_not_nil sep r E).
      * intros Hin. apply elem_of_cons in Hin as [Heq|Hin]; [congruence|].
        exact (IH H Hin).
Qed.

(** The piece after the first underscore ends at the next underscore or at
    the end of the data. *)
Lemma split_second_piece (pre lang rest : str) :
  underscore ∉ pre -> underscore ∉ lang ->
  rest = [] \/ (exists tail, rest = underscore :: tail) ->
  split underscore (pre ++ underscore :: lang ++ rest) !! 1%nat = Some lang.
Proof.
  intros Hpre Hlang Hrest. rewrite (split_at_first _ _ _ Hpre).
  destruct Hrest as [->|(tail & ->)].
  - rewrite app_nil_r, (split_no_sep _ _ Hlang). reflexivity.
  - rewrite (split_at_first _ _ _ Hlang). reflexivity.
Qed.

(** Either a statement before the [try] block raises or they all return. *)
Lemma prelude_cases env callback :
  (exists e, prelude_raises env callback e)
  \/ (exists lang, prelude_returns env callback lang).
Proof.
  destruct (data callback) as [d|] eqn:Hd.
  - destruct (split underscore d !! 1%nat) as [lang|] eqn:Hl.
    + destruct (callback_answer env) as [[]|e] eqn:Ha.
      * destruct (message_edit_text env (accepted_text lang)) as [[]|e] eqn:He.
        -- right. exists lang, d. auto.
        -- left. exists e. eapply edit_raises; eauto.
      * left. exists e. eapply answer_raises; eauto.
    + left. exists IndexError. eapply no_underscore; eauto.
      apply split_second_none. exact Hl.
  - left. exists AttributeError. apply no_data. exact Hd.
Qed.

(** An exception before the [try] block leaves the handler: nothing is
    printed, no failure notice is sent, the FSM context and the disk are as
    they were. *)
Lemma prelude_raises_spec env callback e m :
  prelude_raises env callback e ->
  (process_language_choice env callback m).2 = Exc e
  /\ fsm_state (process_language_choice env callback m).1 = fsm_state m
  /\ fsm_data (process_language_choice env callback m).1 = fsm_data m
  /\ disk (process_language_choice env callback m).1 = disk m
  /\ exists evs,
       trace (process_language_choice env callback m).1 = trace m ++ evs
       /\ Forall (fun ev => ev = EAnswer
                            \/ exists lang, ev = EEditText (accepted_text lang)) evs.
Proof.
  intros H.
  destruct (process_language_choice env callback m) as [m' r] eqn:E.
  revert E.
  cbv beta iota zeta delta
    [process_language_choice def mbind M_bind mret M_ret raise
     split_underscore getitem get_data answer edit_text invoke record].
  destruct H as [Hd|d Hd Hno|d lang e Hd Hl Ha|d lang e Hd Hl Ha He].
  - rewrite Hd. cbv beta iota. intros [= <- <-]. cbn [fst snd].
    do 4 (split; [reflexivity|]).
    exists []. rewrite app_nil_r. split; [reflexivity|constructor].
  - rewrite Hd. cbv beta iota.
    rewrite (split_no_sep _ _ Hno). cbn [lookup list_lookup].
    cbv beta iota. intros [= <- <-]. cbn [fst snd].
    do 4 (split; [reflexivity|]).
    exists []. rewrite app_nil_r. split; [reflexivity|constructor].
  - rewrite Hd. cbv beta iota. rewrite Hl. cbv beta iota.
    rewrite Ha. cbv beta iota. intros [= <- <-].
    cbn [fst snd fsm_state fsm_data disk trace].
    do 4 (split; [reflexivity|]).
    exists [EAnswer]. split; [reflexivity|].
    constructor; [left; reflexivity|constructor].
  - rewrite Hd. cbv beta iota. rewrite Hl. cbv beta iota.
    rewrite Ha. cbv beta iota.
    cbn [fst snd fsm_state fsm_data disk trace].
    rewrite He. cbv beta iota. intros [= <- <-].
    cbn [fst snd fsm_state fsm_data disk trace].
    do 4 (split; [reflexivity|]).
    exists [EAnswer; EEditText (accepted_text lang)].
    split; [rewrite <- app_assoc; reflexivity|].
    constructor; [left; reflexivity|].
    constructor; [right; exists lang; reflexivity|]. constructor.
Qed.

(** C10: for a user awaiting the language choice, an exception raised before
    the [try] block (the split of callback data that is missing, the index
    into data without an underscore, the answer to the callback, the edit of
    the prompt message) leaves the handler uncaught: nothing is printed, the
    failure notice is not sent, and the FSM context is not cleared: the state
    is still [WaitingForLanguageChoice] and the data is unchanged. *)
Theorem prelude_exception_escapes env callback e m :
  fsm_state m = Some WaitingForLanguageChoice ->
  prelude_raises env callback e ->
  (on_callback_query env callback m).2 = Exc e
  /\ fsm_state (on_callback_query env callback m).1 = Some WaitingForLanguageChoice
  /\ fsm_data (on_callback_query env callback m).1 = fsm_data m
  /\ disk (on_callback_query env callback m).1 = disk m
  /\ exists evs,
       trace (on_callback_query env callback m).1 = trace m ++ evs
       /\ Forall (fun ev => ev <> EEditText failure_text
                            /\ forall line, ev <> EPrint line) evs.
Proof.
  intros Hstate Hraise. unfold on_callback_query. rewrite Hstate.
  destruct (prelude_raises_spec env callback e m Hraise)
    as (Hr & Hs & Hd & Hk & evs & Ht & Hall).
  split; [exact Hr|]. split; [congruence|].
  split; [exact Hd|]. split; [exact Hk|].
  exists evs. split; [exact Ht|].
  eapply Forall_impl; [exact Hall|].
  intros ev [->|(lang & ->)]; (split; [|discriminate]).
  - discriminate.
  - intros Habs. apply (accepted_not_failure lang). congruence.
Qed.

Lemma prelude_exception_escapes_witness :
  (on_callback_query Examples.ok_env (Examples.press "english")
     (Examples.pending (lit "AB"))).2 = Exc IndexError
  /\ fsm_state (on_callback_query Examples.ok_env (Examples.press "english")
                  (Examples.pending (lit "AB"))).1
     = Some WaitingForLanguageChoice
  /\ fsm_data (on_callback_query Examples.ok_env (Examples.press "english")
                 (Examples.pending (lit "AB"))).1
     = fsm_data (Examples.pending (lit "AB")).
Proof.
  destruct (prelude_exception_escapes Examples.ok_env (Examples.press "english")
              IndexError (Examples.pending (lit "AB")))
    as (Hr & Hs & Hd & _).
  - reflexivity.
  - apply (no_underscore _ _ (lit "english")); [reflexivity|].
    apply (bool_decide_unpack _). vm_compute. exact I.
  - split; [exact Hr|]. split; [exact Hs | exact Hd].
Defined.

(** ** The language code *)

Lemma pipeline_translated env lang fid file t tr m :
  recognized env lang fid file t -> truthy (strip t) = true ->
  GoogleTranslator env lang (lit "ru") = Returns tt ->
  translator_translate env lang (lit "ru") t = Returns tr ->
  trace (pipeline env lang fid m).1
    = trace m ++ [EGetFile fid; EMakedirs downloads;
                  EDownloadFile (file_path file) (mp4_path fid);
                  EVideoFileClip (mp4_path fid); EWriteAudiofile (mp3_path fid);
                  EClose; ETranscribe (mp3_path fid) lang;
                  EGoogleTranslator lang (lit "ru"); ETranslate t;
                  EEditText (response_text lang t tr)].
Proof.
  intros (((Hget & Hmk & Hdl) & Hclip & Haudio & Hclose) & Htr) Hsome Hnew Htl.
  run. feed.
  destruct (message_edit_text env (response_text lang t tr));
    cbn [fst snd trace]; rewrite <- !app_assoc; reflexivity.
Qed.

(** Every call of the handler that takes a source language is handed the
    second piece of the callback data. *)
Lemma handler_languages env callback d lang m :
  data callback = Some d -> split underscore d !! 1%nat = Some lang ->
  exists evs,
    trace (process_language_choice env callback m).1 = trace m ++ evs
    /\ Forall (fun ev => forall l, language_of ev = Some l -> l = lang) evs.
Proof.
  intros Hd Hl.
  destruct (prelude_cases env callback) as [(e & Hraise)|(lang' & Hret)].
  - destruct (prelude_raises_spec env callback e m Hraise)
      as (_ & _ & _ & _ & evs & Ht & Hall).
    exists evs. split; [exact Ht|].
    eapply Forall_impl; [exact Hall|].
    intros ev [->|(x & ->)] l; discriminate.
  - assert (lang' = lang) as ->.
    { destruct Hret as (d' & Hd' & Hl' & _). congruence. }
    rewrite (process_language_choice_prelude env callback lang m Hret).
    set (fid := fsm_data m !! video_file_id).
    pose proof (try_statement_trace env lang fid
                (started lang m)) as Ht.
    destruct (pipeline_spec env lang fid (started lang m))
      as (_ & _ & _ & _ & (evs & Hevs & Hall) & _).
    eexists. split.
    + rewrite Ht, Hevs, trace_started, <- !app_assoc. reflexivity.
    + cbn [app]. repeat (constructor; [discriminate|]).
      apply Forall_app. split.
      * eapply Forall_impl; [exact Hall|]. intros ev (Hlang & _). exact Hlang.
      * destruct ((pipeline env lang fid (started lang m)).2);
          repeat (constructor; [discriminate|]); constructor.
Qed.

(** C8, as the code has it: for a user awaiting the language choice and
    callback data with an underscore, the source language is the piece of
    the data between the first underscore and the next one (or the end of
    the data), whatever that piece is: it is not compared with "en" or
    "es".  Every recognition and translation call of the cycle is handed
    that piece, and when the cycle goes through, both are called with it. *)
Theorem language_is_second_piece env callback pre lang rest m :
  fsm_state m = Some WaitingForLanguageChoice ->
  data callback = Some (pre ++ underscore :: lang ++ rest) ->
  underscore ∉ pre -> underscore ∉ lang ->
  rest = [] \/ (exists tail, rest = underscore :: tail) ->
  let fid := fsm_data m !! video_file_id in
  (exists evs,
     trace (on_callback_query env callback m).1 = trace m ++ evs
     /\ Forall (fun ev => forall l, language_of ev = Some l -> l = lang) evs)
  /\ (forall file t tr,
      callback_answer env = Returns tt ->
      message_edit_text env (accepted_text lang) = Returns tt ->
      recognized env lang fid file t -> truthy (strip t) = true ->
      GoogleTranslator env lang (lit "ru") = Returns tt ->
      translator_translate env lang (lit "ru") t = Returns tr ->
      exists evs,
        trace (on_callback_query env callback m).1
          = trace m ++ [EAnswer; EEditText (accepted_text lang);
                        EGetFile fid; EMakedirs downloads;
                        EDownloadFile (file_path file) (mp4_path fid);
                        EVideoFileClip (mp4_path fid);
                        EWriteAudiofile (mp3_path fid); EClose;
                        ETranscribe (mp3_path fid) lang;
                        EGoogleTranslator lang (lit "ru"); ETranslate t;
                        EEditText (response_text lang t tr)] ++ evs).
Proof.
  intros Hstate Hd Hpre Hlang Hrest fid.
  pose proof (split_second_piece pre lang rest Hpre Hlang Hrest) as Hl.
  unfold on_callback_query. rewrite Hstate. split.
  - exact (handler_languages env callback _ lang m Hd Hl).
  - intros file t tr Ha He Hrec Hsome Hnew Htl.
    assert (Hret : prelude_returns env callback lang).
    { eexists. eauto. }
    rewrite (process_language_choice_prelude env callback lang m Hret).
    fold fid.
    pose proof (try_statement_trace env lang fid
                (started lang m)) as Ht.
    rewrite (pipeline_translated env lang fid file t tr (started lang m)
               Hrec Hsome Hnew Htl), trace_started in Ht.
    eexists. rewrite Ht, <- !app_assoc. reflexivity.
Qed.

Lemma language_is_second_piece_witness :
  exists evs,
    trace (on_callback_query Examples.ok_env (Examples.press "lang_fr")
             (Examples.pending (lit "AB"))).1
      = [EAnswer; EEditText (accepted_text (lit "fr"));
         EGetFile (Some (lit "AB")); EMakedirs downloads;
         EDownloadFile (file_path Examples.the_file) (mp4_path (Some (lit "AB")));
         EVideoFileClip (mp4_path (Some (lit "AB")));
         EWriteAudiofile (mp3_path (Some (lit "AB"))); EClose;
         ETranscribe (mp3_path (Some (lit "AB"))) (lit "fr");
         EGoogleTranslator (lit "fr") (lit "ru"); ETranslate (lit "hello");
         EEditText (response_text (lit "fr") (lit "hello") (lit "привет"))]
        ++ evs.
Proof.
  destruct (language_is_second_piece Examples.ok_env (Examples.press "lang_fr")
              (lit "lang") (lit "fr") [] (Examples.pending (lit "AB")))
    as (_ & Hfull).
  - reflexivity.
  - reflexivity.
  - apply (bool_decide_unpack _). vm_compute. exact I.
  - apply (bool_decide_unpack _). vm_compute. exact I.
  - left. reflexivity.
  - cbv zeta in Hfull. rewrite pending_reference in Hfull.
    apply (Hfull Examples.the_file (lit "hello") (lit "привет")).
    + reflexivity.
    + reflexivity.
    + repeat split; reflexivity.
    + reflexivity.
    + reflexivity.
    + reflexivity.
Defined.

(** The button data "lang_en_US": what follows the first underscore is
    "en_US", recognition is handed "en". *)
Lemma language_is_not_rest_of_data :
  after_first underscore (lit "lang_en_US") = Some (lit "en_US")
  /\ ~ (forall ev l,
          ev ∈ trace (on_callback_query Examples.ok_env
                        (Examples.press "lang_en_US")
                        (Examples.pending (lit "AB"))).1 ->
          language_of ev = Some l ->
          after_first underscore (lit "lang_en_US") = Some l).
Proof.
  split; [vm_compute; reflexivity|].
  intros H.
  specialize (H (ETranscribe (mp3_path (Some (lit "AB"))) (lit "en")) (lit "en")).
  assert (Hin : ETranscribe (mp3_path (Some (lit "AB"))) (lit "en")
                  ∈ trace (on_callback_query Examples.ok_env
                             (Examples.press "lang_en_US")
                             (Examples.pending (lit "AB"))).1).
  { vm_compute. do 8 apply list_elem_of_further. apply list_elem_of_here. }
  specialize (H Hin eq_refl). vm_compute in H. discriminate H.
Qed.

(** * Further properties of the handlers *)

(** ** [send_welcome] and the missing size *)

Lemma send_welcome_eq env m :
  send_welcome env m =
    (record (EReply welcome_text None) m,
     match message_reply env welcome_text None with
     | Returns _ => Val tt
     | Raises e => Exc e
     end).
Proof.
  unfold send_welcome, def, reply, invoke.
  destruct (message_reply env welcome_text None) as [[]|e]; reflexivity.
Qed.

(** The greeting is one reply without keyboard and nothing else: the FSM
    context and the disk are untouched, so a user who sends the start
    command while a video is pending is still awaiting the language choice
    for that video, and the next button press fetches it. *)
Theorem send_welcome_keeps_pending env env' callback lang old m :
  fsm_state m = Some WaitingForLanguageChoice ->
  fsm_data m !! video_file_id = Some old ->
  prelude_returns env' callback lang ->
  trace (send_welcome env m).1 = trace m ++ [EReply welcome_text None]
  /\ fsm_state (send_welcome env m).1 = Some WaitingForLanguageChoice
  /\ fsm_data (send_welcome env m).1 = fsm_data m
  /\ disk (send_welcome env m).1 = disk m
  /\ exists evs,
       trace (on_callback_query env' callback (send_welcome env m).1).1
         = trace m ++ [EReply welcome_text None; EAnswer;
                       EEditText (accepted_text lang); EGetFile (Some old)]
           ++ evs.
Proof.
  intros Hstate Hold Hret. rewrite send_welcome_eq. cbn [fst].
  split; [reflexivity|]. split; [exact Hstate|].
  split; [reflexivity|]. split; [reflexivity|].
  unfold on_callback_query. cbn [fsm_state record]. rewrite Hstate.
  rewrite (process_language_choice_prelude env' callback lang _ Hret).
  change (fsm_data (record (EReply welcome_text None) m)) with (fsm_data m).
  rewrite Hold.
  pose proof (try_statement_trace env' lang (Some old)
                (started lang (record (EReply welcome_text None) m))) as Ht.
  destruct (pipeline_spec env' lang (Some old)
              (started lang (record (EReply welcome_text None) m)))
    as (_ & _ & _ & _ & (evs & Hevs & _) & _).
  eexists. rewrite Ht, Hevs, trace_started. unfold record. cbn [trace].
  rewrite <- !app_assoc. reflexivity.
Qed.

Lemma send_welcome_keeps_pending_witness :
  fsm_state (send_welcome Examples.ok_env (Examples.pending (lit "AB"))).1
    = Some WaitingForLanguageChoice
  /\ fsm_data (send_welcome Examples.ok_env (Examples.pending (lit "AB"))).1
     = fsm_data (Examples.pending (lit "AB")).
Proof.
  destruct (send_welcome_keeps_pending Examples.ok_env Examples.ok_env
              (Examples.press "lang_en") (lit "en") (lit "AB")
              (Examples.pending (lit "AB")))
    as (_ & Hs & Hd & _).
  - reflexivity.
  - apply pending_reference.
  - exists (lit "lang_en"). repeat split; reflexivity.
  - split; [exact Hs | exact Hd].
Defined.

Lemma handle_video_missing_size_eq env video m :
  file_size video = None ->
  handle_video env video m = (m, Exc TypeError).
Proof.
  intros Hsize. run. rewrite Hsize. reflexivity.
Qed.

(** A video whose declared size is missing: the comparison with the limit
    raises [TypeError] before anything else happens; no reply is sent and
    nothing is stored. *)
Theorem handle_video_missing_size env video m :
  file_size video = None ->
  handle_video env video m = (m, Exc TypeError).
Proof.
  intros Hsize. run. rewrite Hsize. reflexivity.
Qed.

Lemma handle_video_missing_size_witness :
  handle_video Examples.ok_env {| file_id := lit "AB"; file_size := None |}
    Examples.idle = (Examples.idle, Exc TypeError).
Proof.
  apply (handle_video_missing_size Examples.ok_env
           {| file_id := lit "AB"; file_size := None |} Examples.idle).
  reflexivity.
Defined.

(** ** The calls of a cycle *)

Ltac case_call :=
  match goal with
  | |- context [match ?o with _ => _ end] =>
    lazymatch o with
    | context [match _ with _ => _ end] => fail
    | _ => tryif is_var o then fail else destruct o eqn:?
    end
  end;
  cbv beta iota;
  cbn [fsm_state fsm_data disk dirs owned reading trace video_path audio_path
       fst snd].

Ltac tail_ok_leaf :=
  split; [reflexivity|];
  intros ? ? ?; first [discriminate | congruence].

Lemma pipeline_tail env lang fid m :
  (exists evs,
     trace (pipeline env lang fid m).1 = trace m ++ EGetFile fid :: evs
     /\ Forall (tail_ok fid) evs)
  /\ match (pipeline env lang fid m).2 with
     | Exc _ => True
     | _ => exists body,
              last (trace (pipeline env lang fid m).1) = Some (EEditText body)
              /\ (body = no_speech_text
                  \/ exists t tr, body = response_text lang t tr)
     end.
Proof.
  destruct (pipeline env lang fid m) as [m' r] eqn:E.
  revert E. run. repeat case_call.
  all: intros [= <- <-].
  all: cbn [fsm_state fsm_data disk dirs owned reading trace video_path audio_path
       fst snd].
  all: split.
  all: try exact I.
  all: try (eexists; split; [apply last_snoc|]; eauto).
  all: rewrite <- ?app_assoc; cbn [app]; eexists; (split; [reflexivity|]).
  all: repeat (constructor; [tail_ok_leaf|]); constructor.
Qed.



Lemma filter_get_file_nil (evs : list Event) :
  Forall (fun ev => is_get_file ev = false) evs ->
  filter (fun ev => is_get_file ev = true) evs = [].
Proof.
  induction 1 as [|ev evs Hev _ IH]; [reflexivity|].
  rewrite filter_cons_False; [exact IH|]. congruence.
Qed.

(** A run of the callback handler fetches at most once, and only the
    reference stored in the FSM data; a download, if there is one, writes
    to the video path of that reference. *)
Theorem callback_fetches_stored_reference env callback m :
  exists evs,
    trace (on_callback_query env callback m).1 = trace m ++ evs
    /\ (forall f, EGetFile f ∈ evs -> f = fsm_data m !! video_file_id)
    /\ (length (filter (fun ev => is_get_file ev = true) evs) <= 1)%nat
    /\ (forall src dst, EDownloadFile src dst ∈ evs ->
        dst = mp4_path (fsm_data m !! video_file_id)).
Proof.
  unfold on_callback_query.
  destruct (fsm_state m) as [[]|].
  2:{ exists []. rewrite app_nil_r. cbn [fst].
      split; [reflexivity|]. split; [|split; [cbn; lia|]].
      - intros f Hin. apply elem_of_nil in Hin. destruct Hin.
      - intros src dst Hin. apply elem_of_nil in Hin. destruct Hin. }
  destruct (prelude_cases env callback) as [(e & Hraise)|(lang & Hret)].
  - destruct (prelude_raises_spec env callback e m Hraise)
      as (_ & _ & _ & _ & evs & Ht & Hall).
    exists evs. split; [exact Ht|].
    rewrite Forall_forall in Hall.
    split; [|split].
    + intros f Hin. destruct (Hall _ Hin) as [Heq|(x & Heq)]; discriminate Heq.
    + rewrite filter_get_file_nil; [cbn; lia|].
      apply Forall_forall. intros ev Hin.
      destruct (Hall _ Hin) as [->|(x & ->)]; reflexivity.
    + intros src dst Hin.
      destruct (Hall _ Hin) as [Heq|(x & Heq)]; discriminate Heq.
  - rewrite (process_language_choice_prelude env callback lang m Hret).
    set (fid := fsm_data m !! video_file_id).
    pose proof (try_statement_trace env lang fid
                (started lang m)) as Ht.
    destruct (pipeline_tail env lang fid (started lang m))
      as ((evs & Hevs & Hall) & _).
    set (closing := match (pipeline env lang fid (started lang m)).2 with
                    | Exc e => [EPrint (error_line e); EEditText failure_text]
                    | _ => []
                    end) in Ht.
    assert (Hclosing : Forall (tail_ok fid) closing).
    { subst closing.
      destruct ((pipeline env lang fid (started lang m)).2);
        repeat (constructor; [tail_ok_leaf|]); constructor. }
    assert (Hrest : Forall (tail_ok fid) (evs ++ closing)).
    { apply Forall_app. split; assumption. }
    exists ([EAnswer; EEditText (accepted_text lang)]
            ++ EGetFile fid :: evs ++ closing).
    split.
    + rewrite Ht, Hevs, trace_started, <- !app_assoc. reflexivity.
    + rewrite Forall_forall in Hrest. cbn [app]. split; [|split].
      * intros f Hin.
        apply elem_of_cons in Hin as [Heq|Hin]; [discriminate Heq|].
        apply elem_of_cons in Hin as [Heq|Hin]; [discriminate Heq|].
        apply elem_of_cons in Hin as [Heq|Hin]; [congruence|].
        destruct (Hrest _ Hin) as [Hno _]. discriminate Hno.
      * rewrite filter_cons_False by discriminate.
        rewrite filter_cons_False by discriminate.
        rewrite filter_cons_True by reflexivity.
        rewrite filter_get_file_nil; [cbn; lia|].
        apply Forall_forall. intros ev Hin.
        destruct (Hrest _ Hin) as [Hno _]. exact Hno.
      * intros src dst Hin.
        apply elem_of_cons in Hin as [Heq|Hin]; [discriminate Heq|].
        apply elem_of_cons in Hin as [Heq|Hin]; [discriminate Heq|].
        apply elem_of_cons in Hin as [Heq|Hin]; [discriminate Heq|].
        destruct (Hrest _ Hin) as [_ Hdst]. exact (Hdst src dst eq_refl).
Qed.

(** ** Callback data *)

Lemma split_pieces_no_sep (sep : N) (s : str) :
  Forall (fun piece => sep ∉ piece) (split sep s).
Proof.
  induction s as [|c r IH]; simpl.
  - constructor; [apply not_elem_of_nil|constructor].
  - destruct (N.eqb_spec c sep) as [->|Hne].
    + constructor; [apply not_elem_of_nil|exact IH].
    + destruct (split sep r) as [|piece pieces]; [repeat constructor|].
      * intros Hin. apply elem_of_cons in Hin as [Heq|Hin]; [congruence|].
        apply elem_of_nil in Hin. exact Hin.
      * inversion IH as [|? ? Hpiece Hpieces]; subst.
        constructor; [|exact Hpieces].
        intros Hin. apply elem_of_cons in Hin as [Heq|Hin]; [congruence|].
        exact (Hpiece Hin).
Qed.

Lemma split_second_some (sep : N) (s : str) :
  sep ∈ s -> exists piece, split sep s !! 1%nat = Some piece.
Proof.
  intros Hin. destruct (split sep s !! 1%nat) as [piece|] eqn:E; [eauto|].
  exfalso. exact (split_second_none sep s E Hin).
Qed.

Lemma process_language_choice_no_underscore env callback d m :
  data callback = Some d -> underscore ∉ d ->
  process_language_choice env callback m = (m, Exc IndexError).
Proof.
  intros Hd Hno.
  cbv beta iota zeta delta
    [process_language_choice def mbind M_bind mret M_ret raise
     split_underscore getitem].
  rewrite Hd. cbv beta iota. rewrite (split_no_sep _ _ Hno). reflexivity.
Qed.

Lemma process_language_choice_answers env callback d m :
  data callback = Some d -> underscore ∈ d ->
  exists evs,
    trace (process_language_choice env callback m).1 = trace m ++ EAnswer :: evs.
Proof.
  intros Hd Hin. destruct (split_second_some _ _ Hin) as (lang & Hl).
  destruct (callback_answer env) as [[]|e] eqn:Ha.
  - destruct (message_edit_text env (accepted_text lang)) as [[]|e] eqn:He.
    + assert (Hret : prelude_returns env callback lang) by (exists d; auto).
      rewrite (process_language_choice_prelude env callback lang m Hret).
      pose proof (try_statement_trace env lang (fsm_data m !! video_file_id)
                (started lang m)) as Ht.
      destruct (pipeline_spec env lang (fsm_data m !! video_file_id)
                  (started lang m)) as (_ & _ & _ & _ & (evs & Hevs & _) & _).
      eexists. rewrite Ht, Hevs, trace_started, <- !app_assoc. reflexivity.
    + destruct (process_language_choice env callback m) as [m' r] eqn:E.
      revert E.
      cbv beta iota zeta delta
        [process_language_choice def mbind M_bind mret M_ret raise
         split_underscore getitem get_data answer edit_text invoke record].
      rewrite Hd. cbv beta iota. rewrite Hl. cbv beta iota.
      rewrite Ha. cbv beta iota. cbn [trace].
      rewrite He. cbv beta iota. intros [= <- <-]. cbn [fst trace].
      eexists. rewrite <- app_assoc. reflexivity.
  - destruct (process_language_choice env callback m) as [m' r] eqn:E.
    revert E.
    cbv beta iota zeta delta
      [process_language_choice def mbind M_bind mret M_ret raise
       split_underscore getitem get_data answer edit_text invoke record].
    rewrite Hd. cbv beta iota. rewrite Hl. cbv beta iota.
    rewrite Ha. cbv beta iota. intros [= <- <-]. cbn [fst trace].
    eexists. reflexivity.
Qed.

(** The callback is answered exactly when its data contains an underscore:
    with one, [callback.answer()] is the first call of the handler; without
    one, the handler raises [IndexError] having called nothing, so the
    button press is never acknowledged. *)
Theorem callback_answered_iff_underscore env callback d m :
  data callback = Some d ->
  (underscore ∈ d <->
   exists evs,
     trace (process_language_choice env callback m).1 = trace m ++ EAnswer :: evs)
  /\ (underscore ∉ d ->
      process_language_choice env callback m = (m, Exc IndexError)).
Proof.
  intros Hd. split; [split|].
  - apply process_language_choice_answers. exact Hd.
  - intros (evs & Ht).
    destruct (decide (underscore ∈ d)) as [Hin|Hno]; [exact Hin|].
    rewrite (process_language_choice_no_underscore env callback d m Hd Hno) in Ht.
    cbn [fst] in Ht. exfalso.
    apply (f_equal length) in Ht. rewrite length_app in Ht. cbn in Ht. lia.
  - apply process_language_choice_no_underscore. exact Hd.
Qed.

Lemma callback_answered_iff_underscore_witness :
  process_language_choice Examples.ok_env (Examples.press "english")
    (Examples.pending (lit "AB"))
  = (Examples.pending (lit "AB"), Exc IndexError).
Proof.
  destruct (callback_answered_iff_underscore Examples.ok_env
              (Examples.press "english") (lit "english")
              (Examples.pending (lit "AB")) eq_refl) as (_ & Hno).
  apply Hno. apply (bool_decide_unpack _). vm_compute. exact I.
Defined.

(** Whatever the callback data, a source language handed to recognition or
    to the translator contains no underscore: it is one piece of the split
    data, so a code such as [pt_BR] cannot be selected. *)
Theorem language_has_no_underscore env callback m :
  exists evs,
    trace (process_language_choice env callback m).1 = trace m ++ evs
    /\ Forall (fun ev => forall l, language_of ev = Some l -> underscore ∉ l) evs.
Proof.
  destruct (prelude_cases env callback) as [(e & Hraise)|(lang & Hret)].
  - destruct (prelude_raises_spec env callback e m Hraise)
      as (_ & _ & _ & _ & evs & Ht & Hall).
    exists evs. split; [exact Ht|].
    eapply Forall_impl; [exact Hall|].
    intros ev [->|(x & ->)] l; discriminate.
  - destruct Hret as (d & Hd & Hl & Ha & He).
    destruct (handler_languages env callback d lang m Hd Hl) as (evs & Ht & Hall).
    exists evs. split; [exact Ht|].
    assert (Hlang : underscore ∉ lang).
    { pose proof (split_pieces_no_sep underscore d) as Hpieces.
      rewrite Forall_forall in Hpieces. apply Hpieces.
      apply list_elem_of_lookup. eauto. }
    eapply Forall_impl; [exact Hall|].
    intros ev Hev l Hl'. rewrite (Hev l Hl'). exact Hlang.
Qed.

(** Every button of the keyboard sent with the language question carries
    data the callback handler parses: the language it extracts is "en" or
    "es", and the press is acknowledged as the first call of the handler. *)
Theorem keyboard_buttons_parse env button m :
  button ∈ concat language_keyboard ->
  (exists lang,
     split underscore (callback_data button) !! 1%nat = Some lang
     /\ (lang = lit "en" \/ lang = lit "es"))
  /\ exists evs,
       trace (process_language_choice env
                {| data := Some (callback_data button) |} m).1
         = trace m ++ EAnswer :: evs.
Proof.
  intros Hin.
  assert (Hcases : button = {| text := lit "🇬🇧 English"; callback_data := lit "lang_en" |}
                   \/ button = {| text := lit "🇪🇸 Español"; callback_data := lit "lang_es" |}).
  { unfold language_keyboard in Hin. cbn [concat app] in Hin.
    apply elem_of_cons in Hin as [Heq|Hin]; [left; exact Heq|].
    apply elem_of_cons in Hin as [Heq|Hin]; [right; exact Heq|].
    apply elem_of_nil in Hin. destruct Hin. }
  split.
  - destruct Hcases as [-> | ->]; cbn [callback_data].
    + exists (lit "en"). split; [vm_compute; reflexivity|left; reflexivity].
    + exists (lit "es"). split; [vm_compute; reflexivity|right; reflexivity].
  - apply (process_language_choice_answers env
             {| data := Some (callback_data button) |}
             (callback_data button) m eq_refl).
    destruct Hcases as [-> | ->]; cbn [callback_data];
      apply (bool_decide_unpack _); vm_compute; exact I.
Qed.

Lemma keyboard_buttons_parse_witness :
  exists lang,
    split underscore (lit "lang_es") !! 1%nat = Some lang
    /\ (lang = lit "en" \/ lang = lit "es").
Proof.
  refine (proj1 (keyboard_buttons_parse Examples.ok_env
                   {| text := lit "🇪🇸 Español"; callback_data := lit "lang_es" |}
                   Examples.idle _)).
  unfold language_keyboard. cbn [concat app].
  apply list_elem_of_further. apply list_elem_of_here.
Defined.

(** ** The scratch paths *)

Lemma mp4_path_shape fid :
  mp4_path fid = (downloads ++ lit "/" ++ format_opt fid) ++ lit ".mp4".
Proof. unfold mp4_path. rewrite <- !app_assoc. reflexivity. Qed.

Lemma mp3_path_shape fid :
  mp3_path fid = (downloads ++ lit "/" ++ format_opt fid) ++ lit ".mp3".
Proof. unfold mp3_path. rewrite <- !app_assoc. reflexivity. Qed.

(** The video path and the audio path never coincide, whatever the file
    references, and each is determined by its file identifier alone: two
    cycles for different identifiers use four different files. *)
Theorem scratch_paths_distinct (a b : str) :
  (forall fid fid', mp4_path fid <> mp3_path fid')
  /\ (mp4_path (Some a) = mp4_path (Some b) -> a = b)
  /\ (mp3_path (Some a) = mp3_path (Some b) -> a = b)
  /\ (a <> b ->
      ({[mp4_path (Some a); mp3_path (Some a)]} : gset str)
        ## {[mp4_path (Some b); mp3_path (Some b)]}).
Proof.
  assert (Hcross : forall fid fid', mp4_path fid <> mp3_path fid').
  { intros fid fid' H. rewrite mp4_path_shape, mp3_path_shape in H.
    apply app_inj_2 in H as [_ H]; [|reflexivity].
    vm_compute in H. discriminate H. }
  assert (H4 : forall x y, mp4_path (Some x) = mp4_path (Some y) -> x = y).
  { intros x y H. rewrite !mp4_path_shape in H.
    apply app_inj_2 in H as [H _]; [|reflexivity].
    cbn [format_opt] in H. apply app_inv_head in H. apply app_inv_head in H.
    exact H. }
  assert (H3 : forall x y, mp3_path (Some x) = mp3_path (Some y) -> x = y).
  { intros x y H. rewrite !mp3_path_shape in H.
    apply app_inj_2 in H as [H _]; [|reflexivity].
    cbn [format_opt] in H. apply app_inv_head in H. apply app_inv_head in H.
    exact H. }
  split; [exact Hcross|]. split; [apply H4|]. split; [apply H3|].
  intros Hne p Hp Hq.
  apply elem_of_union in Hp as [Hp|Hp]; apply elem_of_singleton in Hp;
    apply elem_of_union in Hq as [Hq|Hq]; apply elem_of_singleton in Hq; subst p.
  - apply Hne, H4. exact Hq.
  - exact (Hcross _ _ Hq).
  - exact (Hcross _ _ (eq_sym Hq)).
  - apply Hne, H3. exact Hq.
Qed.

Lemma scratch_paths_distinct_witness :
  ({[mp4_path (Some (lit "AB")); mp3_path (Some (lit "AB"))]} : gset str)
    ## {[mp4_path (Some (lit "CD")); mp3_path (Some (lit "CD"))]}.
Proof.
  apply (scratch_paths_distinct (lit "AB") (lit "CD")).
  vm_compute. discriminate.
Defined.

(** ** Whole cycles *)

Lemma pipeline_delivered env lang fid file t tr m :
  recognized env lang fid file t -> truthy (strip t) = true ->
  GoogleTranslator env lang (lit "ru") = Returns tt ->
  translator_translate env lang (lit "ru") t = Returns tr ->
  (pipeline env lang fid m).2
    = match message_edit_text env (response_text lang t tr) with
      | Returns _ => Val tt
      | Raises e => Exc e
      end.
Proof.
  intros (((Hget & Hmk & Hdl) & Hclip & Haudio & Hclose) & Htr) Hsome Hnew Htl.
  run. feed.
  destruct (message_edit_text env (response_text lang t tr)) as [[]|e];
    reflexivity.
Qed.

Lemma disk_after_cycle env lang fid file m :
  scratch_removable env (pipeline env lang fid m).1 ->
  bot_get_file env fid = Returns file ->
  disk (def (try_except_finally (pipeline env lang fid)
              (on_exception env) (cleanup env)) m).1
    = disk m ∖ {[mp4_path fid; mp3_path fid]}.
Proof.
  intros Hok Hget.
  destruct (try_statement_spec env lang fid m Hok) as (_ & _ & Hk & _ & _).
  cbv zeta in Hk. rewrite Hk. clear Hok Hk.
  destruct (pipeline_spec env lang fid m) as (_ & _ & Hlo & Hhi & _ & Hcase).
  destruct Hcase as [(e & Hraise & _)|(file' & _ & Hv & Ha)]; [congruence|].
  rewrite (scratch_paths fid _ Hv Ha). set_solver.
Qed.

(** A cycle in which every call returns and the transcript is not blank:
    the calls are, in order, the answer, the processing notice, the fetch,
    the download, the extraction, the recognition, the translation into
    "ru" and one edit with the text holding the transcript and the
    translation; the handler returns, the FSM context is cleared, and the
    disk is what it was without the two scratch files. *)
Theorem successful_cycle env callback lang file t tr m :
  prelude_returns env callback lang ->
  let fid := fsm_data m !! video_file_id in
  recognized env lang fid file t -> truthy (strip t) = true ->
  GoogleTranslator env lang (lit "ru") = Returns tt ->
  translator_translate env lang (lit "ru") t = Returns tr ->
  message_edit_text env (response_text lang t tr) = Returns tt ->
  trace (process_language_choice env callback m).1
    = trace m ++ [EAnswer; EEditText (accepted_text lang);
                  EGetFile fid; EMakedirs downloads;
                  EDownloadFile (file_path file) (mp4_path fid);
                  EVideoFileClip (mp4_path fid);
                  EWriteAudiofile (mp3_path fid); EClose;
                  ETranscribe (mp3_path fid) lang;
                  EGoogleTranslator lang (lit "ru"); ETranslate t;
                  EEditText (response_text lang t tr)]
  /\ (process_language_choice env callback m).2 = Val tt
  /\ fsm_state (process_language_choice env callback m).1 = None
  /\ fsm_data (process_language_choice env callback m).1 = ∅
  /\ disk (process_language_choice env callback m).1
     = disk m ∖ {[mp4_path fid; mp3_path fid]}.
Proof.
  intros Hret fid Hrec Hsome Hnew Htl Hedit.
  rewrite (process_language_choice_prelude env callback lang m Hret).
  fold fid.
  pose proof (extracted_removable env lang fid file (started lang m)
                (proj1 Hrec)) as Hok.
  destruct (try_statement_spec env lang fid (started lang m) Hok)
    as (Hs & Hd & _ & Ht & Hr).
  cbv zeta in Ht, Hr.
  pose proof (pipeline_delivered env lang fid file t tr (started lang m)
                Hrec Hsome Hnew Htl) as Hres.
  rewrite Hedit in Hres. rewrite Hres in Ht, Hr.
  rewrite (pipeline_translated env lang fid file t tr (started lang m)
             Hrec Hsome Hnew Htl), trace_started, app_nil_r in Ht.
  split; [rewrite Ht, <- !app_assoc; reflexivity|].
  split; [exact Hr|]. split; [exact Hs|]. split; [exact Hd|].
  destruct Hrec as (((Hget & _) & _) & _).
  exact (disk_after_cycle env lang fid file (started lang m) Hok Hget).
Qed.

Lemma successful_cycle_witness :
  (process_language_choice Examples.ok_env (Examples.press "lang_en")
     (Examples.pending (lit "AB"))).2 = Val tt
  /\ fsm_state (process_language_choice Examples.ok_env (Examples.press "lang_en")
                  (Examples.pending (lit "AB"))).1 = None.
Proof.
  destruct (successful_cycle Examples.ok_env (Examples.press "lang_en")
              (lit "en") Examples.the_file (lit "hello") (lit "привет")
              (Examples.pending (lit "AB")))
    as (_ & Hr & Hs & _).
  - exists (lit "lang_en"). repeat split; reflexivity.
  - rewrite pending_reference. repeat split; reflexivity.
  - reflexivity.
  - reflexivity.
  - reflexivity.
  - reflexivity.
  - split; [exact Hr | exact Hs].
Defined.

(** The edit that carries the result is inside the [try] block: when it
    raises after a translation that went through, the exception is printed
    and the failure notice is sent in place of the result, the FSM context
    is cleared and both scratch files are removed. *)
Theorem undelivered_result_reported_as_failure env callback lang file t tr e m :
  prelude_returns env callback lang ->
  let fid := fsm_data m !! video_file_id in
  recognized env lang fid file t -> truthy (strip t) = true ->
  GoogleTranslator env lang (lit "ru") = Returns tt ->
  translator_translate env lang (lit "ru") t = Returns tr ->
  message_edit_text env (response_text lang t tr) = Raises e ->
  trace (process_language_choice env callback m).1
    = trace m ++ [EAnswer; EEditText (accepted_text lang);
                  EGetFile fid; EMakedirs downloads;
                  EDownloadFile (file_path file) (mp4_path fid);
                  EVideoFileClip (mp4_path fid);
                  EWriteAudiofile (mp3_path fid); EClose;
                  ETranscribe (mp3_path fid) lang;
                  EGoogleTranslator lang (lit "ru"); ETranslate t;
                  EEditText (response_text lang t tr);
                  EPrint (error_line e); EEditText failure_text]
  /\ fsm_state (process_language_choice env callback m).1 = None
  /\ fsm_data (process_language_choice env callback m).1 = ∅
  /\ disk (process_language_choice env callback m).1
     = disk m ∖ {[mp4_path fid; mp3_path fid]}.
Proof.
  intros Hret fid Hrec Hsome Hnew Htl Hedit.
  rewrite (process_language_choice_prelude env callback lang m Hret).
  fold fid.
  pose proof (extracted_removable env lang fid file (started lang m)
                (proj1 Hrec)) as Hok.
  destruct (try_statement_spec env lang fid (started lang m) Hok)
    as (Hs & Hd & _ & Ht & _).
  cbv zeta in Ht.
  pose proof (pipeline_delivered env lang fid file t tr (started lang m)
                Hrec Hsome Hnew Htl) as Hres.
  rewrite Hedit in Hres. rewrite Hres in Ht.
  rewrite (pipeline_translated env lang fid file t tr (started lang m)
             Hrec Hsome Hnew Htl), trace_started in Ht.
  split; [rewrite Ht, <- !app_assoc; reflexivity|].
  split; [exact Hs|]. split; [exact Hd|].
  destruct Hrec as (((Hget & _) & _) & _).
  exact (disk_after_cycle env lang fid file (started lang m) Hok Hget).
Qed.

Lemma undelivered_result_reported_as_failure_witness :
  fsm_state (process_language_choice Undelivered.env (Examples.press "lang_en")
               (Examples.pending (lit "AB"))).1 = None
  /\ last (trace (process_language_choice Undelivered.env
                    (Examples.press "lang_en")
                    (Examples.pending (lit "AB"))).1)
     = Some (EEditText failure_text).
Proof.
  destruct (undelivered_result_reported_as_failure Undelivered.env
              (Examples.press "lang_en") (lit "en") Examples.the_file
              (lit "hello") (lit "привет") Examples.network_down
              (Examples.pending (lit "AB")))
    as (Ht & Hs & _).
  - exists (lit "lang_en"). split; [reflexivity|]. split; [reflexivity|].
    split; [reflexivity|]. unfold Undelivered.env. cbn [message_edit_text].
    rewrite bool_decide_eq_false_2; [reflexivity|].
    intros H. apply (f_equal (fun s => nth 0 s 0)) in H.
    vm_compute in H. discriminate H.
  - rewrite pending_reference. repeat split; reflexivity.
  - reflexivity.
  - reflexivity.
  - reflexivity.
  - unfold Undelivered.env. cbn [message_edit_text].
    rewrite bool_decide_eq_true_2; reflexivity.
  - split; [exact Hs|]. rewrite Ht.
    cbv zeta. rewrite pending_reference. reflexivity.
Defined.

(** Once a cycle whose [finally] block got through its [os.remove] calls
    is over, the user is Idle, so a further button press, on the same or on
    another button, is ignored: no handler runs, no call is issued and
    nothing changes. *)
Theorem press_after_cycle_ignored env env' callback callback' lang m :
  prelude_returns env callback lang ->
  removal_gets_through env (fsm_data m !! video_file_id) m ->
  on_callback_query env' callback' (process_language_choice env callback m).1
    = ((process_language_choice env callback m).1, Val tt).
Proof.
  intros Hret Hrem. unfold on_callback_query.
  rewrite (process_language_choice_prelude env callback lang m Hret).
  destruct (try_statement_spec env lang (fsm_data m !! video_file_id)
              (started lang m)
              (gets_through_removable env lang _ m Hrem)) as (Hs & _).
  cbv zeta in Hs. rewrite Hs. reflexivity.
Qed.

Lemma press_after_cycle_ignored_witness :
  on_callback_query Examples.ok_env (Examples.press "lang_es")
    (process_language_choice Examples.ok_env (Examples.press "lang_en")
       (Examples.pending (lit "AB"))).1
  = ((process_language_choice Examples.ok_env (Examples.press "lang_en")
        (Examples.pending (lit "AB"))).1, Val tt).
Proof.
  apply (press_after_cycle_ignored Examples.ok_env Examples.ok_env
           (Examples.press "lang_en") (Examples.press "lang_es") (lit "en")).
  - exists (lit "lang_en"). repeat split; reflexivity.
  - rewrite pending_reference. right. left. exists Examples.the_file.
    repeat split; reflexivity.
Defined.

(** ** Sequences of events *)

(** The calls of a cycle whose statements before the [try] block return. *)
Lemma cycle_events env callback lang m :
  prelude_returns env callback lang ->
  exists evs,
    trace (process_language_choice env callback m).1
      = trace m ++ [EAnswer; EEditText (accepted_text lang);
                    EGetFile (fsm_data m !! video_file_id)] ++ evs
    /\ Forall (tail_ok (fsm_data m !! video_file_id)) evs.
Proof.
  intros Hret.
  rewrite (process_language_choice_prelude env callback lang m Hret).
  set (fid := fsm_data m !! video_file_id).
  pose proof (try_statement_trace env lang fid
                (started lang m)) as Ht.
  destruct (pipeline_tail env lang fid (started lang m))
    as ((evs & Hevs & Hall) & _).
  eexists. split.
  - rewrite Ht, Hevs, trace_started, <- !app_assoc. reflexivity.
  - apply Forall_app. split; [exact Hall|].
    destruct ((pipeline env lang fid (started lang m)).2);
      repeat (constructor; [tail_ok_leaf|]); constructor.
Qed.

Lemma tail_has_no_fetch fid evs f :
  Forall (tail_ok fid) evs -> EGetFile f ∉ evs.
Proof.
  intros Hall Hin. rewrite Forall_forall in Hall.
  destruct (Hall _ Hin) as [Hno _]. discriminate Hno.
Qed.

(** Latest upload wins: when a second video is accepted before a language
    is chosen, the button press that follows fetches the second video and
    nothing else; the first one is never fetched. *)
Theorem latest_upload_wins env1 env2 env3 first second n1 n2 callback lang m :
  file_size first = Some n1 -> (n1 <= size_limit)%Z ->
  file_size second = Some n2 -> (n2 <= size_limit)%Z ->
  message_reply env2 ask_language_text (Some language_keyboard) = Returns tt ->
  prelude_returns env3 callback lang ->
  let m2 := (handle_video env2 second (handle_video env1 first m).1).1 in
  exists evs,
    trace (on_callback_query env3 callback m2).1
      = trace m2 ++ [EAnswer; EEditText (accepted_text lang);
                     EGetFile (Some (file_id second))] ++ evs
    /\ (forall f, EGetFile f ∉ evs)
    /\ (forall src dst, EDownloadFile src dst ∈ evs ->
        dst = mp4_path (Some (file_id second))).
Proof.
  intros Hs1 Hn1 Hs2 Hn2 Hreply Hret m2.
  assert (Hstate : fsm_state m2 = Some WaitingForLanguageChoice).
  { subst m2. rewrite (handle_video_accepts env2 second n2 _ Hs2 Hn2).
    cbv zeta. rewrite Hreply. reflexivity. }
  assert (Hdata : fsm_data m2 !! video_file_id = Some (file_id second)).
  { subst m2. rewrite (handle_video_accepts env2 second n2 _ Hs2 Hn2).
    cbv zeta. rewrite Hreply. cbn [fst fsm_data with_fsm record].
    apply lookup_insert_eq. }
  unfold on_callback_query. rewrite Hstate.
  destruct (cycle_events env3 callback lang m2 Hret) as (evs & Ht & Hall).
  rewrite Hdata in Ht, Hall.
  exists evs. split; [exact Ht|]. split.
  - intros f. exact (tail_has_no_fetch _ _ f Hall).
  - intros src dst Hin. rewrite Forall_forall in Hall.
    destruct (Hall _ Hin) as [_ Hdst]. exact (Hdst src dst eq_refl).
Qed.

Lemma latest_upload_wins_witness :
  exists evs,
    trace (on_callback_query Examples.ok_env (Examples.press "lang_en")
             (handle_video Examples.ok_env Examples.small_video
                (handle_video Examples.ok_env
                   {| file_id := lit "OLD"; file_size := Some 1%Z |}
                   Examples.idle).1).1).1
      = [EReply ask_language_text (Some language_keyboard);
         EReply ask_language_text (Some language_keyboard)]
        ++ [EAnswer; EEditText (accepted_text (lit "en"));
            EGetFile (Some (file_id Examples.small_video))] ++ evs.
Proof.
  destruct (latest_upload_wins Examples.ok_env Examples.ok_env Examples.ok_env
              {| file_id := lit "OLD"; file_size := Some 1%Z |}
              Examples.small_video 1%Z (5 * 1024 * 1024)%Z
              (Examples.press "lang_en") (lit "en") Examples.idle)
    as (evs & Ht & _).
  - reflexivity.
  - discriminate.
  - reflexivity.
  - discriminate.
  - reflexivity.
  - exists (lit "lang_en"). repeat split; reflexivity.
  - exists evs. exact Ht.
Defined.

(** A rejected video does not cancel the pending one: the button press
    that follows the size rejection fetches the video that was pending
    before it. *)
Theorem rejected_video_leaves_pending_cycle env env' video n old callback lang m :
  file_size video = Some n -> (size_limit < n)%Z ->
  fsm_state m = Some WaitingForLanguageChoice ->
  fsm_data m !! video_file_id = Some old ->
  prelude_returns env' callback lang ->
  exists evs,
    trace (on_callback_query env' callback (handle_video env video m).1).1
      = trace m ++ [EReply too_big_text None; EAnswer;
                    EEditText (accepted_text lang); EGetFile (Some old)] ++ evs
    /\ (forall f, EGetFile f ∉ evs).
Proof.
  intros Hsize Hn Hstate Hold Hret.
  rewrite (handle_video_rejects env video n m Hsize Hn). cbn [fst].
  unfold on_callback_query.
  change (fsm_state (record (EReply too_big_text None) m)) with (fsm_state m).
  rewrite Hstate.
  destruct (cycle_events env' callback lang
              (record (EReply too_big_text None) m) Hret) as (evs & Ht & Hall).
  change (fsm_data (record (EReply too_big_text None) m)) with (fsm_data m)
    in Ht, Hall.
  rewrite Hold in Ht, Hall.
  exists evs. split.
  - rewrite Ht. unfold record. cbn [trace]. rewrite <- !app_assoc. reflexivity.
  - intros f. exact (tail_has_no_fetch _ _ f Hall).
Qed.

Lemma rejected_video_leaves_pending_cycle_witness :
  exists evs,
    trace (on_callback_query Examples.ok_env (Examples.press "lang_en")
             (handle_video Examples.ok_env Examples.large_video
                (Examples.pending (lit "AB"))).1).1
      = [EReply too_big_text None; EAnswer;
         EEditText (accepted_text (lit "en")); EGetFile (Some (lit "AB"))]
        ++ evs.
Proof.
  destruct (rejected_video_leaves_pending_cycle Examples.ok_env Examples.ok_env
              Examples.large_video (25 * 1024 * 1024)%Z (lit "AB")
              (Examples.press "lang_en") (lit "en")
              (Examples.pending (lit "AB")))
    as (evs & Ht & _).
  - reflexivity.
  - reflexivity.
  - reflexivity.
  - apply pending_reference.
  - exists (lit "lang_en"). repeat split; reflexivity.
  - exists evs. exact Ht.
Defined.

(** ** Handlers run one after the other *)

Lemma handle_video_fsm env video m :
  (fsm_state (handle_video env video m).1 = fsm_state m
   /\ fsm_data (handle_video env video m).1 = fsm_data m)
  \/ (fsm_data (handle_video env video m).1
        = <[video_file_id := file_id video]> (fsm_data m)
      /\ (fsm_state (handle_video env video m).1 = Some WaitingForLanguageChoice
          \/ fsm_state (handle_video env video m).1 = fsm_state m)).
Proof.
  destruct (file_size video) as [n|] eqn:Hsize.
  - destruct (Z.ltb_spec size_limit n) as [Hbig|Hsmall].
    + rewrite (handle_video_rejects env video n m Hsize Hbig). left. auto.
    + rewrite (handle_video_accepts env video n m Hsize Hsmall). cbv zeta.
      right.
      destruct (message_reply env ask_language_text (Some language_keyboard));
        cbn [fst fsm_state fsm_data with_fsm record]; auto.
  - rewrite (handle_video_missing_size_eq env video m Hsize). left. auto.
Qed.

Lemma on_callback_query_fsm env callback m :
  (fsm_state (on_callback_query env callback m).1 = fsm_state m
   /\ fsm_data (on_callback_query env callback m).1 = fsm_data m)
  \/ (fsm_state (on_callback_query env callback m).1 = None
      /\ fsm_data (on_callback_query env callback m).1 = ∅).
Proof.
  unfold on_callback_query. destruct (fsm_state m) as [[]|] eqn:Hstate.
  - destruct (prelude_cases env callback) as [(e & Hraise)|(lang & Hret)].
    + destruct (prelude_raises_spec env callback e m Hraise)
        as (_ & Hs & Hd & _).
      left. split; congruence.
    + rewrite (process_language_choice_prelude env callback lang m Hret).
      destruct (try_statement_fsm env lang (fsm_data m !! video_file_id)
                  (started lang m)) as [[Hs Hd]|[Hs Hd]].
      * right. auto.
      * change (fsm_state (started lang m)) with (fsm_state m) in Hs.
        change (fsm_data (started lang m)) with (fsm_data m) in Hd.
        left. split; congruence.
  - left. auto.
Qed.

(** Running the handlers one after the other from a user without state and
    data, the data never holds a key other than [video_file_id], and a user
    awaiting the language choice always has a stored reference: a cycle then
    fetches a stored identifier, never a missing one. *)
Theorem reachable_waiting_has_reference m :
  reachable m ->
  dom (fsm_data m) ⊆ {[video_file_id]}
  /\ (fsm_state m = Some WaitingForLanguageChoice ->
      is_Some (fsm_data m !! video_file_id))
  /\ (forall env callback lang,
      fsm_state m = Some WaitingForLanguageChoice ->
      prelude_returns env callback lang ->
      exists old evs,
        trace (on_callback_query env callback m).1
          = trace m ++ [EAnswer; EEditText (accepted_text lang);
                        EGetFile (Some old)] ++ evs).
Proof.
  intros Hreach.
  assert (Hinv : dom (fsm_data m) ⊆ {[video_file_id]}
                 /\ (fsm_state m = Some WaitingForLanguageChoice ->
                     is_Some (fsm_data m !! video_file_id))).
  { induction Hreach as [m Hs Hd|env m _ [IHd IHs]|env video m _ [IHd IHs]
                         |env callback m _ [IHd IHs]].
    - rewrite Hs, Hd. split; [set_solver|discriminate].
    - rewrite send_welcome_eq. cbn [fst]. split; [exact IHd|exact IHs].
    - destruct (handle_video_fsm env video m) as [[Hs Hd]|[Hd Hs]].
      + rewrite Hs, Hd. split; assumption.
      + rewrite Hd. split.
        * rewrite dom_insert_L. set_solver.
        * intros _. rewrite lookup_insert_eq. eauto.
    - destruct (on_callback_query_fsm env callback m) as [[Hs Hd]|[Hs Hd]].
      + rewrite Hs, Hd. split; assumption.
      + rewrite Hs, Hd. split; [set_solver|discriminate]. }
  destruct Hinv as [Hdom Hsome].
  split; [exact Hdom|]. split; [exact Hsome|].
  intros env callback lang Hstate Hret.
  destruct (Hsome Hstate) as [old Hold].
  unfold on_callback_query. rewrite Hstate.
  destruct (cycle_events env callback lang m Hret) as (evs & Ht & _).
  rewrite Hold in Ht. eauto.
Qed.

Lemma reachable_waiting_has_reference_witness :
  is_Some (fsm_data (handle_video Examples.ok_env Examples.small_video
                       Examples.idle).1 !! video_file_id).
Proof.
  destruct (reachable_waiting_has_reference
              (handle_video Examples.ok_env Examples.small_video Examples.idle).1)
    as (_ & Hsome & _).
  - apply reach_video. apply reach_fresh; reflexivity.
  - apply Hsome. reflexivity.
Defined.

(** An accepted video whose language question could not be sent leaves an
    Idle user Idle with the reference stored: the button press that follows
    is ignored, and the next accepted video whose question is sent replaces
    the reference and is the one a cycle then fetches. *)
Theorem failed_prompt_blocks_cycle env env' env2 video n e callback next n' m :
  file_size video = Some n -> (n <= size_limit)%Z ->
  fsm_state m = None ->
  message_reply env ask_language_text (Some language_keyboard) = Raises e ->
  file_size next = Some n' -> (n' <= size_limit)%Z ->
  message_reply env2 ask_language_text (Some language_keyboard) = Returns tt ->
  let m1 := (handle_video env video m).1 in
  fsm_data m1 !! video_file_id = Some (file_id video)
  /\ on_callback_query env' callback m1 = (m1, Val tt)
  /\ fsm_state (handle_video env2 next m1).1 = Some WaitingForLanguageChoice
  /\ fsm_data (handle_video env2 next m1).1 !! video_file_id
     = Some (file_id next).
Proof.
  intros Hsize Hn Hidle Hraise Hsize' Hn' Hreply m1.
  assert (Hstate : fsm_state m1 = None).
  { subst m1. rewrite (handle_video_accepts env video n m Hsize Hn).
    cbv zeta. rewrite Hraise. exact Hidle. }
  split; [|split; [|split]].
  - subst m1. rewrite (handle_video_accepts env video n m Hsize Hn).
    cbv zeta. rewrite Hraise. cbn [fst fsm_data with_fsm record].
    apply lookup_insert_eq.
  - unfold on_callback_query. rewrite Hstate. reflexivity.
  - rewrite (handle_video_accepts env2 next n' m1 Hsize' Hn').
    cbv zeta. rewrite Hreply. reflexivity.
  - rewrite (handle_video_accepts env2 next n' m1 Hsize' Hn').
    cbv zeta. rewrite Hreply. cbn [fst fsm_data with_fsm record].
    apply lookup_insert_eq.
Qed.

Lemma failed_prompt_blocks_cycle_witness :
  on_callback_query Examples.ok_env (Examples.press "lang_en")
    (handle_video Offline.env Examples.small_video Examples.idle).1
  = ((handle_video Offline.env Examples.small_video Examples.idle).1, Val tt).
Proof.
  destruct (failed_prompt_blocks_cycle Offline.env Examples.ok_env
              Examples.ok_env Examples.small_video (5 * 1024 * 1024)%Z
              Examples.network_down (Examples.press "lang_en")
              Examples.small_video (5 * 1024 * 1024)%Z Examples.idle)
    as (_ & Hignored & _).
  - reflexivity.
  - discriminate.
  - reflexivity.
  - reflexivity.
  - reflexivity.
  - discriminate.
  - reflexivity.
  - exact Hignored.
Defined.

Lemma pipeline_reaches_translator env lang fid file t m :
  recognized env lang fid file t -> truthy (strip t) = true ->
  exists evs,
    trace (pipeline env lang fid m).1
      = trace m ++ [EGetFile fid; EMakedirs downloads;
                    EDownloadFile (file_path file) (mp4_path fid);
                    EVideoFileClip (mp4_path fid);
                    EWriteAudiofile (mp3_path fid); EClose;
                    ETranscribe (mp3_path fid) lang;
                    EGoogleTranslator lang (lit "ru")] ++ evs.
Proof.
  intros (((Hget & Hmk & Hdl) & Hclip & Haudio & Hclose) & Htr) Hsome.
  destruct (pipeline env lang fid m) as [m' r] eqn:E.
  revert E. run. feed. repeat case_call.
  all: intros [= <- <-]; cbn [fst trace].
  all: rewrite <- ?app_assoc; cbn [app]; eexists; reflexivity.
Qed.

(** Once recognition has returned a transcript, the translator is
    constructed exactly when the transcript has a character that is not
    white space; it is then constructed for the chosen language and "ru". *)
Theorem translator_iff_speech env callback lang file t m :
  prelude_returns env callback lang ->
  recognized env lang (fsm_data m !! video_file_id) file t ->
  (exists evs,
     trace (process_language_choice env callback m).1 = trace m ++ evs
     /\ (EGoogleTranslator lang (lit "ru") ∈ evs <-> forallb isspace t = false)).
Proof.
  intros Hret Hrec.
  rewrite (process_language_choice_prelude env callback lang m Hret).
  set (fid := fsm_data m !! video_file_id) in *.
  pose proof (try_statement_trace env lang fid
                (started lang m)) as Ht.
  set (closing := match (pipeline env lang fid (started lang m)).2 with
                  | Exc e => [EPrint (error_line e); EEditText failure_text]
                  | _ => []
                  end) in Ht.
  assert (Hclosing : EGoogleTranslator lang (lit "ru") ∉ closing).
  { subst closing. destruct ((pipeline env lang fid (started lang m)).2);
      intros Hin; repeat (apply elem_of_cons in Hin as [Heq|Hin];
                          [discriminate Heq|]);
      apply elem_of_nil in Hin; exact Hin. }
  destruct (truthy (strip t)) eqn:Hsome.
  - destruct (pipeline_reaches_translator env lang fid file t (started lang m)
                Hrec Hsome) as (evs & Hevs).
    eexists. split.
    + rewrite Ht, Hevs, trace_started, <- !app_assoc. reflexivity.
    + split.
      * intros _. destruct (forallb isspace t) eqn:Hb; [|reflexivity].
        apply blank_not_truthy in Hb. congruence.
      * intros _. cbn [app]. do 9 apply list_elem_of_further.
        apply list_elem_of_here.
  - destruct (pipeline_spec env lang fid (started lang m))
      as (_ & _ & _ & _ & (evs & Hevs & Hall) & _).
    eexists. split.
    + rewrite Ht, Hevs, trace_started, <- !app_assoc. reflexivity.
    + split.
      * intros Hin. exfalso. cbn [app] in Hin.
        apply elem_of_cons in Hin as [Heq|Hin]; [discriminate Heq|].
        apply elem_of_cons in Hin as [Heq|Hin]; [discriminate Heq|].
        apply elem_of_cons in Hin as [Heq|Hin]; [discriminate Heq|].
        apply elem_of_app in Hin as [Hin|Hin]; [|exact (Hclosing Hin)].
        rewrite Forall_forall in Hall.
        destruct (Hall _ Hin) as (_ & Hcall & _).
        destruct (Hcall eq_refl) as (t' & Ht' & Htruthy).
        destruct Hrec as (_ & Htr). congruence.
      * intros Hb. apply blank_not_truthy in Hsome. congruence.
Qed.

Lemma translator_iff_speech_witness :
  exists evs,
    trace (process_language_choice Silent.env (Examples.press "lang_en")
             (Examples.pending (lit "AB"))).1 = evs
    /\ (EGoogleTranslator (lit "en") (lit "ru") ∈ evs
        <-> forallb isspace (lit " " ++ newline) = false).
Proof.
  destruct (translator_iff_speech Silent.env (Examples.press "lang_en")
              (lit "en") Examples.the_file (lit " " ++ newline)
              (Examples.pending (lit "AB")))
    as (evs & Ht & Hiff).
  - exists (lit "lang_en"). repeat split; reflexivity.
  - rewrite pending_reference. repeat split; reflexivity.
  - exists evs. split; [exact Ht | exact Hiff].
Defined.
